(** * napalm-panos: the configuration transaction core of [PANOSDriver]

    A shallow embedding of [napalm_panos/panos.py] (classes [PANOSLock] and
    [PANOSDriver], lines 49-479) and the properties of its lock manager,
    backup manager and transaction flags.

    The driver is stateful Python talking to a device through three
    collaborators (pan.xapi, requests, netmiko).  It is embedded as a small
    state-and-exception monad over the object's fields; every call into a
    collaborator is logged in a trace and answered by an [environment], so
    that "which device commands were issued" is a statement about the
    trace and "the device reports failure" is a statement about the
    environment. *)

From Stdlib Require Import String Ascii.
From stdpp Require Import gmap strings list.

Local Open Scope string_scope.
Local Open Scope list_scope.

(** ** Python strings *)

Module Py.

(** Truth value of a [str]: the empty string is falsy. *)
Definition truthy (s : string) : bool :=
  match s with EmptyString => false | String _ _ => true end.

(** Truth value of an argument whose default is [None]. *)
Definition truthy_opt (o : option string) : bool :=
  match o with None => false | Some s => truthy s end.

(** [s.replace(a, b)] for one-character [a] and [b]. *)
Fixpoint replace_char (a b : ascii) (s : string) : string :=
  match s with
  | EmptyString => EmptyString
  | String c r =>
      String (if Ascii.eqb c a then b else c) (replace_char a b r)
  end.

(** [os.path.basename]: what follows the last slash. *)
Fixpoint basename_from (acc : string) (s : string) : string :=
  match s with
  | EmptyString => acc
  | String c r =>
      if Ascii.eqb c "/"%char then basename_from r r else basename_from acc r
  end.

Definition basename (s : string) : string := basename_from s s.

(** The ASCII line boundaries of [str.splitlines]: LF, VT, FF, CR, FS, GS,
    RS (CR LF counts once). *)
Definition is_linebreak (c : ascii) : bool :=
  let n := nat_of_ascii c in
  (Nat.leb 10 n && Nat.leb n 13) || (Nat.leb 28 n && Nat.leb n 30).

Fixpoint splitlines_from (cur : string) (s : string) : list string :=
  match s with
  | EmptyString =>
      match cur with EmptyString => [] | _ => [cur] end
  | String c r =>
      if is_linebreak c then
        match r with
        | String c' r' =>
            if Ascii.eqb c "013"%char && Ascii.eqb c' "010"%char
            then cur :: splitlines_from EmptyString r'
            else cur :: splitlines_from EmptyString r
        | EmptyString => [cur]
        end
      else splitlines_from (cur +:+ String c EmptyString) r
  end.

Definition splitlines (s : string) : list string :=
  splitlines_from EmptyString s.

(** ASCII whitespace removed by [str.strip()]. *)
Definition is_space (c : ascii) : bool :=
  let n := nat_of_ascii c in
  (Nat.leb 9 n && Nat.leb n 13) || (Nat.leb 28 n && Nat.leb n 32).

Fixpoint lstrip (s : string) : string :=
  match s with
  | EmptyString => EmptyString
  | String c r => if is_space c then lstrip r else s
  end.

Fixpoint rstrip (s : string) : string :=
  match s with
  | EmptyString => EmptyString
  | String c r =>
      match rstrip r with
      | EmptyString => if is_space c then EmptyString else String c EmptyString
      | r' => String c r'
      end
  end.

Definition strip (s : string) : string := rstrip (lstrip s).

End Py.

(** ** Exceptions *)

(** The exception classes the module raises or lets through.  The spec's
    [LockAcquisitionError], [LockReleaseError], [ReplaceConfigError] and
    [MergeConfigError] are napalm's [LockError], [UnlockError],
    [ReplaceConfigException] and [MergeConfigException]. *)
Inductive exn : Type :=
| ConnectionException (msg : string)
| ReplaceConfigException (msg : string)
| MergeConfigException (msg : string)
| LockError (msg : string)
| UnlockError (msg : string)
| PanXapiError (msg : string)
| NotImplementedError (msg : string)
| AttributeError (msg : string)
| IOError (msg : string)
| OtherError (class msg : string).

(** ** Calls into the collaborators *)

(** One constructor per call site into pan.xapi, requests, the local file
    system and netmiko; the index is the type of what the driver reads
    back. *)
Inductive call : Type -> Type :=
| PanXapiNew (hostname : string) (api_key : option string)
    (credentials : option (string * string)) : call unit
| XapiOp (cmd : string) : call (option string)
    (* [device.op(cmd=cmd)]; the answer is [device.status] afterwards *)
| XapiShow : call unit
| XapiXmlRoot : call string
| XapiKeygen : call string
| ImportPost (hostname key filename : string) : call string
    (* lines 244-262: open the file, POST it, [raise_for_status], parse the
       body; the answer is the [status] attribute of the response *)
| ReadFile (filename : string) : call string
| ConnectHandler (ip username password : string) : call unit
| SshSendConfigSet (config : list string) : call unit
| SshCommit (comment : option string) : call unit
| SshExitConfigMode : call unit
| SshSendCommand (cmd : string) : call string
| SshDisconnect : call unit
| SshIsActive : call bool
| Sleep (seconds : nat) : call unit.

Inductive event : Type :=
| Event {R : Type} (c : call R).

(** The trace lists the calls made so far, most recent first. *)
Definition trace : Type := list event.

(** What the outside world answers.  [respond tr c] is the answer to call
    [c] made after the calls of [tr]: a value or a raised exception.
    [today tr] is [str(datetime.now().date())] at that moment. *)
Record environment : Type := {
  respond : forall R : Type, trace -> call R -> R + exn;
  today : trace -> string
}.

(** ** The monad: object state, trace, exceptions *)

Inductive outcome (A : Type) : Type :=
| Ok (a : A)
| Exn (e : exn).

Arguments Ok {A} a.
Arguments Exn {A} e.

(** A method body over an object of type [St].  Field updates made before
    an exception is raised persist, as they do in Python. *)
Definition M (St A : Type) : Type := St -> trace -> outcome A * St * trace.

Definition ret {St A} (a : A) : M St A := fun s tr => (Ok a, s, tr).

Definition raise {St A} (e : exn) : M St A := fun s tr => (Exn e, s, tr).

Definition bind {St A B} (m : M St A) (k : A -> M St B) : M St B :=
  fun s tr =>
    match m s tr with
    | (Ok a, s', tr') => k a s' tr'
    | (Exn e, s', tr') => (Exn e, s', tr')
    end.

Definition get {St} : M St St := fun s tr => (Ok s, s, tr).

Definition modify {St} (f : St -> St) : M St unit := fun s tr => (Ok tt, f s, tr).

(** [try: m  except <any> as e: h e] *)
Definition try_except {St A} (m : M St A) (h : exn -> M St A) : M St A :=
  fun s tr =>
    match m s tr with
    | (Ok a, s', tr') => (Ok a, s', tr')
    | (Exn e, s', tr') => h e s' tr'
    end.

Declare Scope py_scope.
Delimit Scope py_scope with py.

Notation "x <- m ;; k" := (bind m (fun x => k))
  (at level 100, m at level 99, right associativity) : py_scope.
Notation "m ;; k" := (bind m (fun _ => k))
  (at level 100, right associativity) : py_scope.

Local Open Scope py_scope.

(** [for x in xs: body x] *)
Fixpoint for_each {St A} (xs : list A) (body : A -> M St unit) : M St unit :=
  match xs with
  | [] => ret tt
  | x :: rest => body x ;; for_each rest body
  end.

Definition is_ok {A} (o : outcome A) : bool :=
  match o with Ok _ => true | Exn _ => false end.

(** ** Objects *)

(** [PANOSLock] (lines 49-136).  Its [_device] is the pan.xapi session the
    driver held when it built the lock: a live object, never [None]. *)
Record PANOSLock : Type := {
  locked : bool;
  _lock_comment : string
}.

Definition set_locked (b : bool) (l : PANOSLock) : PANOSLock :=
  {| locked := b; _lock_comment := _lock_comment l |}.

(** The fields of [PANOSDriver] that lines 140-479 read or write.  [device]
    is [false] for [None].  [ssh_device] is not a field of its own: lines
    211-221 and 230-232 assign it together with [ssh_connection], so it is
    a netmiko session exactly when [ssh_connection] holds.  [backup_file]
    is [None] as long as line 406 has not created the attribute. *)
Record PANOSDriver : Type := {
  hostname : string;
  username : string;
  password : string;
  loaded : bool;
  changed : bool;
  device : bool;
  ssh_connection : bool;
  merge_config : bool;
  _lock_object : option PANOSLock;
  _session_config_lock : bool;
  _session_config_lock_comment : string;
  api_key : string;
  backup_file : option string
}.

Definition set_loaded (b : bool) (d : PANOSDriver) : PANOSDriver :=
  {| hostname := hostname d; username := username d; password := password d;
     loaded := b; changed := changed d; device := device d;
     ssh_connection := ssh_connection d; merge_config := merge_config d;
     _lock_object := _lock_object d;
     _session_config_lock := _session_config_lock d;
     _session_config_lock_comment := _session_config_lock_comment d;
     api_key := api_key d; backup_file := backup_file d |}.

Definition set_changed (b : bool) (d : PANOSDriver) : PANOSDriver :=
  {| hostname := hostname d; username := username d; password := password d;
     loaded := loaded d; changed := b; device := device d;
     ssh_connection := ssh_connection d; merge_config := merge_config d;
     _lock_object := _lock_object d;
     _session_config_lock := _session_config_lock d;
     _session_config_lock_comment := _session_config_lock_comment d;
     api_key := api_key d; backup_file := backup_file d |}.

Definition set_device (b : bool) (d : PANOSDriver) : PANOSDriver :=
  {| hostname := hostname d; username := username d; password := password d;
     loaded := loaded d; changed := changed d; device := b;
     ssh_connection := ssh_connection d; merge_config := merge_config d;
     _lock_object := _lock_object d;
     _session_config_lock := _session_config_lock d;
     _session_config_lock_comment := _session_config_lock_comment d;
     api_key := api_key d; backup_file := backup_file d |}.

Definition set_ssh_connection (b : bool) (d : PANOSDriver) : PANOSDriver :=
  {| hostname := hostname d; username := username d; password := password d;
     loaded := loaded d; changed := changed d; device := device d;
     ssh_connection := b; merge_config := merge_config d;
     _lock_object := _lock_object d;
     _session_config_lock := _session_config_lock d;
     _session_config_lock_comment := _session_config_lock_comment d;
     api_key := api_key d; backup_file := backup_file d |}.

Definition set_merge_config (b : bool) (d : PANOSDriver) : PANOSDriver :=
  {| hostname := hostname d; username := username d; password := password d;
     loaded := loaded d; changed := changed d; device := device d;
     ssh_connection := ssh_connection d; merge_config := b;
     _lock_object := _lock_object d;
     _session_config_lock := _session_config_lock d;
     _session_config_lock_comment := _session_config_lock_comment d;
     api_key := api_key d; backup_file := backup_file d |}.

Definition set_lock_object (o : option PANOSLock) (d : PANOSDriver) : PANOSDriver :=
  {| hostname := hostname d; username := username d; password := password d;
     loaded := loaded d; changed := changed d; device := device d;
     ssh_connection := ssh_connection d; merge_config := merge_config d;
     _lock_object := o;
     _session_config_lock := _session_config_lock d;
     _session_config_lock_comment := _session_config_lock_comment d;
     api_key := api_key d; backup_file := backup_file d |}.

Definition set_backup_file (o : option string) (d : PANOSDriver) : PANOSDriver :=
  {| hostname := hostname d; username := username d; password := password d;
     loaded := loaded d; changed := changed d; device := device d;
     ssh_connection := ssh_connection d; merge_config := merge_config d;
     _lock_object := _lock_object d;
     _session_config_lock := _session_config_lock d;
     _session_config_lock_comment := _session_config_lock_comment d;
     api_key := api_key d; backup_file := o |}.

(** The three entries of [optional_args] that [__init__] reads into fields
    used by lines 187-479; [None] is an absent key. *)
Record optional_args : Type := {
  config_lock : option bool;
  config_lock_comment : option string;
  arg_api_key : option string
}.

(** [PANOSDriver.__init__] (lines 140-185). *)
Definition init (hostname username password : string)
    (optional : option optional_args) : PANOSDriver :=
  let args :=
    match optional with
    | Some a => a
    | None =>
        {| config_lock := None; config_lock_comment := None; arg_api_key := None |}
    end in
  {| hostname := hostname; username := username; password := password;
     loaded := false; changed := false; device := false;
     ssh_connection := false; merge_config := false;
     _lock_object := None;
     _session_config_lock := default false (config_lock args);
     _session_config_lock_comment :=
       default "NAPALM-managed-lock" (config_lock_comment args);
     api_key := default "" (arg_api_key args);
     backup_file := None |}.

(** The inline configuration of [load_merge_candidate]: a string, or a
    list of statements as netmiko also accepts. *)
Inductive config_arg : Type :=
| ConfigStr (s : string)
| ConfigLines (lines : list string).

Definition config_truthy (c : option config_arg) : bool :=
  match c with
  | None => false
  | Some (ConfigStr s) => Py.truthy s
  | Some (ConfigLines l) => match l with [] => false | _ => true end
  end.

(** ** The methods *)

Section Methods.

Variable env : environment.

(** Call a collaborator: log the call, return or raise what the
    environment answers. *)
Definition ext {St R} (c : call R) : M St R :=
  fun s tr =>
    match respond env R tr c with
    | inl v => (Ok v, s, Event c :: tr)
    | inr e => (Exn e, s, Event c :: tr)
    end.

(** [time.sleep(seconds)] returns after the pause. *)
Definition sleep {St} (seconds : nat) : M St unit :=
  fun s tr => (Ok tt, s, Event (Sleep seconds) :: tr).

(** [str(datetime.now().date())] *)
Definition now_date {St} : M St string :=
  fun s tr => (Ok (today env tr), s, tr).

(** *** PANOSLock *)

Definition LOCK_TYPES : list string := ["config"; "commit"].

Definition TAKE_LOCK_API_CMD (a0 a1 : string) : string :=
  "<request><" +:+ a0 +:+ "-lock><add><comment>" +:+ a1
    +:+ "</comment></add></" +:+ a0 +:+ "-lock></request>".

Definition RELEASE_LOCK_API_CMD (a0 : string) : string :=
  "<request><" +:+ a0 +:+ "-lock><remove></remove></" +:+ a0
    +:+ "-lock></request>".

(** [PANOSLock.lock] (lines 85-105).  Only [PanXapiError] is caught. *)
Definition lock : M PANOSLock unit :=
  self <- get ;;
  if locked self then ret tt
  else
    for_each LOCK_TYPES (fun lock_type =>
      let cmd := TAKE_LOCK_API_CMD lock_type (_lock_comment self) in
      try_except (_ <- ext (XapiOp cmd) ;; ret tt)
        (fun e =>
           match e with
           | PanXapiError msg =>
               raise (LockError
                 ("Failed to aquire " +:+ lock_type +:+ "-lock: " +:+ msg))
           | _ => raise e
           end)) ;;
    modify (set_locked true).

(** [PANOSLock.unlock] (lines 107-136). *)
Definition unlock : M PANOSLock unit :=
  self <- get ;;
  if negb (locked self) then ret tt
  else
    for_each LOCK_TYPES (fun lock_type =>
      let cmd := RELEASE_LOCK_API_CMD lock_type in
      try_except (_ <- ext (XapiOp cmd) ;; ret tt)
        (fun e =>
           match e with
           | PanXapiError msg =>
               raise (UnlockError
                 ("Failed to release " +:+ lock_type +:+ "-lock: " +:+ msg))
           | _ => raise e
           end)) ;;
    modify (set_locked false).

(** *** PANOSDriver *)

Definition none_has_no (attr : string) : exn :=
  AttributeError ("'NoneType' object has no attribute '" +:+ attr +:+ "'").

(** [self.device.<attr>(...)]: an [AttributeError] while [device] is
    [None]. *)
Definition device_call {R} (attr : string) (c : call R) : M PANOSDriver R :=
  self <- get ;;
  if device self then ext c else raise (none_has_no attr).

(** [self._lock_object.<attr>]: run a lock method on the lock object the
    driver holds; what the method changes stays changed in that object. *)
Definition on_lock_object {A} (attr : string) (m : M PANOSLock A)
    : M PANOSDriver A :=
  fun self tr =>
    match _lock_object self with
    | None => (Exn (none_has_no attr), self, tr)
    | Some l =>
        match m l tr with
        | (o, l', tr') => (o, set_lock_object (Some l') self, tr')
        end
    end.

(** [self.backup_file] read as an attribute. *)
Definition read_backup_file : M PANOSDriver string :=
  self <- get ;;
  match backup_file self with
  | Some f => ret f
  | None =>
      raise (AttributeError
        "'PANOSDriver' object has no attribute 'backup_file'")
  end.

(** [except ConnectionException as e: raise ConnectionException(str(e))] *)
Definition reraise_connection {St A} (e : exn) : M St A :=
  match e with
  | ConnectionException msg => raise (ConnectionException msg)
  | _ => raise e
  end.

(** [open] (lines 187-207). *)
Definition open : M PANOSDriver unit :=
  self <- get ;;
  try_except
    (ext (if Py.truthy (api_key self)
          then PanXapiNew (hostname self) (Some (api_key self)) None
          else PanXapiNew (hostname self) None
                 (Some (username self, password self))) ;;
     modify (set_device true))
    reraise_connection ;;
  if _session_config_lock self then
    (match _lock_object self with
     | None =>
         modify (set_lock_object
           (Some {| locked := false;
                    _lock_comment := _session_config_lock_comment self |}))
     | Some _ => ret tt
     end) ;;
    on_lock_object "lock" lock
  else ret tt.

(** [_open_ssh] (lines 209-221).  The device type and the netmiko options
    that [ConnectHandler] also receives are fixed when the driver is
    built; the call is logged with the three arguments that identify the
    session. *)
Definition _open_ssh : M PANOSDriver unit :=
  self <- get ;;
  try_except
    (ext (ConnectHandler (hostname self) (username self) (password self)))
    reraise_connection ;;
  modify (set_ssh_connection true).

(** [if self.ssh_connection is False: self._open_ssh()] *)
Definition ensure_ssh : M PANOSDriver unit :=
  self <- get ;;
  if negb (ssh_connection self) then _open_ssh else ret tt.

(** [close] (lines 223-232). *)
Definition close : M PANOSDriver unit :=
  self <- get ;;
  (match _session_config_lock self, _lock_object self with
   | true, Some _ =>
       on_lock_object "unlock" unlock ;;
       modify (set_lock_object None)
   | _, _ => ret tt
   end) ;;
  modify (set_device false) ;;
  self <- get ;;
  if ssh_connection self then
    ext SshDisconnect ;;
    modify (set_ssh_connection false)
  else ret tt.

(** [_import_file] (lines 234-265); [None] stands for the [False] it
    returns when the device answers with status [error]. *)
Definition _import_file (filename : string) : M PANOSDriver (option string) :=
  self <- get ;;
  key <- (if negb (Py.truthy (api_key self))
          then device_call "keygen" XapiKeygen
          else ret (api_key self)) ;;
  let path := Py.basename filename in
  status <- ext (ImportPost (hostname self) key filename) ;;
  if String.eqb status "error" then ret None else ret (Some path).

(** [is_alive] (lines 267-275). *)
Definition is_alive : M PANOSDriver (gmap string bool) :=
  self <- get ;;
  alive <- (if device self then
              if ssh_connection self then ext SshIsActive else ret true
            else ret false) ;;
  ret {[ "is_alive" := alive ]}.

(** [self.device.status == "success"] *)
Definition is_success (status : option string) : bool :=
  match status with
  | Some s => String.eqb s "success"
  | None => false
  end.

(** [_save_backup] (lines 405-417). *)
Definition _save_backup : M PANOSDriver bool :=
  date <- now_date ;;
  let file := "config_" +:+ Py.replace_char " " "_" date +:+ ".xml" in
  modify (set_backup_file (Some file)) ;;
  let backup_command :=
    "<save><config><to>" +:+ file +:+ "</to></config></save>" in
  status <- device_call "op" (XapiOp backup_command) ;;
  if is_success status then ret true else ret false.

Definition load_cmd (from : string) : string :=
  "<load><config><from>" +:+ from +:+ "</from></config></load>".

(** [load_replace_candidate] (lines 277-303).  On line 298 the [raise]
    statement applies [.format(path)] to the exception object, not to
    its message; evaluating that expression raises [AttributeError]. *)
Definition load_replace_candidate (filename : option string)
    (config : option config_arg) : M PANOSDriver unit :=
  if config_truthy config then
    raise (ReplaceConfigException "This method requires a config file.")
  else if Py.truthy_opt filename then
    let filename := default "" filename in
    self <- get ;;
    (if negb (loaded self) then
       saved <- _save_backup ;;
       if negb saved then
         raise (ReplaceConfigException "Error while storing backup config")
       else ret tt
     else ret tt) ;;
    path <- _import_file filename ;;
    match path with
    | None =>
        raise (ReplaceConfigException
          "Error while trying to move the config file to the device.")
    | Some path =>
        let cmd := load_cmd path in
        status <- device_call "op" (XapiOp cmd) ;;
        if is_success status then modify (set_loaded true)
        else
          raise (AttributeError
            "'ReplaceConfigException' object has no attribute 'format'")
    end
  else
    raise (ReplaceConfigException "This method requires a config file.").

(** [_get_file_content] (lines 305-314). *)
Definition _get_file_content (filename : string) : M PANOSDriver string :=
  try_except (ext (ReadFile filename))
    (fun e =>
       match e with
       | IOError _ =>
           raise (MergeConfigException
             ("Error while opening " +:+ filename
                +:+ ". Make sure filename is correct."))
       | _ => raise e
       end).

(** [_send_merge_commands] (lines 316-334). *)
Definition _send_merge_commands (config : config_arg) (file_config : bool)
    : M PANOSDriver unit :=
  self <- get ;;
  (if negb (loaded self) then
     saved <- _save_backup ;;
     if negb saved then
       raise (MergeConfigException "Error while storing backup config.")
     else ret tt
   else ret tt) ;;
  ensure_ssh ;;
  let config :=
    match config with
    | ConfigStr s =>
        if file_config then Py.splitlines s else Py.splitlines s
    | ConfigLines lines => lines
    end in
  ext (SshSendConfigSet config) ;;
  modify (set_loaded true) ;;
  modify (set_merge_config true).

(** [_get_candidate] (lines 336-340). *)
Definition _get_candidate : M PANOSDriver string :=
  device_call "op"
    (XapiOp "<show><config><candidate></candidate></config></show>") ;;
  device_call "xml_root" XapiXmlRoot.

(** [_get_running] (lines 342-345). *)
Definition _get_running : M PANOSDriver string :=
  device_call "show" XapiShow ;;
  device_call "xml_root" XapiXmlRoot.

(** [get_config] (lines 347-375). *)
Definition get_config (retrieve : string) (full sanitized : bool)
    : M PANOSDriver (gmap string string) :=
  if full then
    raise (NotImplementedError
      "Full config is not implemented for this platform")
  else if sanitized then
    raise (NotImplementedError
      "Sanitized is not implemented for this platform")
  else
    let configs : gmap string string := ∅ in
    let running := "" in
    let candidate := "" in
    let startup := "" in
    rc <- (if String.eqb retrieve "all" then
             running <- _get_running ;;
             candidate <- _get_candidate ;;
             ret (running, candidate)
           else if String.eqb retrieve "running" then
             running <- _get_running ;;
             ret (running, candidate)
           else if String.eqb retrieve "candidate" then
             candidate <- _get_candidate ;;
             ret (running, candidate)
           else ret (running, candidate)) ;;
    let configs := <[ "running" := fst rc ]> configs in
    let configs := <[ "candidate" := snd rc ]> configs in
    let configs := <[ "startup" := startup ]> configs in
    ret configs.

(** [load_merge_candidate] (lines 377-391). *)
Definition load_merge_candidate (filename : option string)
    (config : option config_arg) : M PANOSDriver unit :=
  if Py.truthy_opt filename then
    let file_config := true in
    content <- _get_file_content (default "" filename) ;;
    let config := ConfigLines (Py.splitlines content) in
    _send_merge_commands config file_config
  else
    match config with
    | Some c =>
        if config_truthy config then
          let file_config := false in
          _send_merge_commands c file_config
        else
          raise (MergeConfigException
            "You must provide either a file or a set-format string")
    | None =>
        raise (MergeConfigException
          "You must provide either a file or a set-format string")
    end.

(** [compare_config] (lines 393-403). *)
Definition compare_config : M PANOSDriver string :=
  ensure_ssh ;;
  ext SshExitConfigMode ;;
  diff <- ext (SshSendCommand "show config diff") ;;
  ret (Py.strip diff).

(** [commit_config] (lines 419-444).  The bare [except:] turns whatever
    the [try] block raised into the exception of the staged kind. *)
Definition commit_config (message : string) : M PANOSDriver unit :=
  self <- get ;;
  (if loaded self then
     ensure_ssh ;;
     try_except
       (ext (SshCommit (Some message)) ;;
        sleep 3 ;;
        modify (set_loaded false) ;;
        modify (set_changed true))
       (fun _ =>
          self <- get ;;
          if merge_config self then
            raise (MergeConfigException "Error while commiting config")
          else
            raise (ReplaceConfigException "Error while commiting config"))
   else raise (ReplaceConfigException "No config loaded.")) ;;
  if _session_config_lock self then
    on_lock_object "locked" (modify (set_locked false)) ;;
    on_lock_object "lock" lock
  else ret tt.

(** [discard_config] (lines 446-457). *)
Definition discard_config : M PANOSDriver unit :=
  self <- get ;;
  if loaded self then
    file <- read_backup_file ;;
    let discard_cmd := load_cmd file in
    status <- device_call "op" (XapiOp discard_cmd) ;;
    if is_success status then
      modify (set_loaded false) ;;
      modify (set_merge_config false)
    else raise (ReplaceConfigException "Error while loading backup config.")
  else ret tt.

(** [rollback] (lines 459-479).  Line 479 builds an exception and drops
    it: nothing is raised from the [except] branch. *)
Definition rollback : M PANOSDriver unit :=
  self <- get ;;
  if changed self then
    file <- read_backup_file ;;
    let rollback_cmd := load_cmd file in
    device_call "op" (XapiOp rollback_cmd) ;;
    sleep 5 ;;
    ensure_ssh ;;
    try_except
      (ext (SshCommit None) ;;
       modify (set_loaded false) ;;
       modify (set_changed false) ;;
       modify (set_merge_config false))
      (fun _ => ret tt)
  else ret tt.

End Methods.

(** ** Sessions: sequences of public operations *)

(** The public operations of lines 187-479. *)
Inductive operation : Type :=
| Open
| Close
| IsAlive
| LoadReplaceCandidate (filename : option string) (config : option config_arg)
| GetConfig (retrieve : string) (full sanitized : bool)
| LoadMergeCandidate (filename : option string) (config : option config_arg)
| CompareConfig
| CommitConfig (message : string)
| DiscardConfig
| Rollback.

(** One call of a public operation, its return value dropped. *)
Definition perform (env : environment) (o : operation) : M PANOSDriver unit :=
  match o with
  | Open => open env
  | Close => close env
  | IsAlive => _ <- is_alive env ;; ret tt
  | LoadReplaceCandidate filename config =>
      load_replace_candidate env filename config
  | GetConfig retrieve full sanitized =>
      _ <- get_config env retrieve full sanitized ;; ret tt
  | LoadMergeCandidate filename config =>
      load_merge_candidate env filename config
  | CompareConfig => _ <- compare_config env ;; ret tt
  | CommitConfig message => commit_config env message
  | DiscardConfig => discard_config env
  | Rollback => rollback env
  end.

(** What one operation of a session did to the driver object. *)
Record transition : Type := {
  performed : operation;
  before : PANOSDriver;
  result : outcome unit;
  after : PANOSDriver
}.

(** A caller performs the operations one after the other on the same
    driver object, going on after an exception. *)
Fixpoint session (env : environment) (ops : list operation)
    (self : PANOSDriver) (tr : trace) : list transition :=
  match ops with
  | [] => []
  | o :: rest =>
      match perform env o self tr with
      | (r, self', tr') =>
          {| performed := o; before := self; result := r; after := self' |}
            :: session env rest self' tr'
      end
  end.

(** ** Environments for concrete runs *)

(** The answer of a device on which everything works. *)
Definition fine {R : Type} (c : call R) : R :=
  match c in call R return R with
  | PanXapiNew _ _ _ => tt
  | XapiOp _ => Some "success"
  | XapiShow => tt
  | XapiXmlRoot => "<response status='success'/>"
  | XapiKeygen => "k3y"
  | ImportPost _ _ _ => "success"
  | ReadFile _ => "set a b"
  | ConnectHandler _ _ _ => tt
  | SshSendConfigSet _ => tt
  | SshCommit _ => tt
  | SshExitConfigMode => tt
  | SshSendCommand _ => ""
  | SshDisconnect => tt
  | SshIsActive => true
  | Sleep _ => tt
  end.

(** The answer with a given status, for the two calls that report one. *)
Definition reports {R : Type} (status : string) (c : call R) : R :=
  match c in call R return R with
  | XapiOp _ => Some status
  | ImportPost _ _ _ => status
  | c => fine c
  end.

Inductive fault : Type :=
| Raises (e : exn)
| Reports (status : string).

(** A device on which everything works on 2024-01-15, except that the
    [n]-th call of the session (counted from 0) meets the fault [f]. *)
Definition faulty (n : nat) (f : fault) : environment :=
  {| respond := fun R tr c =>
       if Nat.eqb (length tr) n then
         match f with
         | Raises e => inr e
         | Reports status => inl (reports status c)
         end
       else inl (fine c);
     today := fun _ => "2024-01-15" |}.

Definition healthy : environment :=
  {| respond := fun R tr c => inl (fine c);
     today := fun _ => "2024-01-15" |}.

(** ** Concrete sessions *)

(** The driver and the trace at the end of a sequence of operations. *)
Fixpoint run (env : environment) (ops : list operation)
    (self : PANOSDriver) (tr : trace) : PANOSDriver * trace :=
  match ops with
  | [] => (self, tr)
  | o :: rest =>
      match perform env o self tr with
      | (_, self', tr') => run env rest self' tr'
      end
  end.

Definition plain_driver : PANOSDriver := init "fw1" "admin" "secret" None.

Definition locking_driver : PANOSDriver :=
  init "fw1" "admin" "secret"
    (Some {| config_lock := Some true;
             config_lock_comment := None;
             arg_api_key := None |}).

Definition merge_a_b : operation :=
  LoadMergeCandidate None (Some (ConfigStr "set a b")).

(** A driver opened on [env], and one with a merge staged on top. *)
Definition opened (env : environment) (self : PANOSDriver)
    : PANOSDriver * trace :=
  run env [Open] self [].

Definition staged (env : environment) (self : PANOSDriver)
    : PANOSDriver * trace :=
  run env [Open; merge_a_b] self [].

(** The same driver after the staged merge was committed. *)
Definition committed (env : environment) (self : PANOSDriver)
    : PANOSDriver * trace :=
  run env [Open; merge_a_b; CommitConfig "m"] self [].

(** The lock object that [open] builds with the default comment. *)
Definition fresh_lock : PANOSLock :=
  {| locked := false; _lock_comment := "NAPALM-managed-lock" |}.

(** With session locking the calls of [Open; merge_a_b; CommitConfig] are
    numbered: 0 the pan.xapi session, 1-2 the locks, 3 the backup, 4 the
    shell channel, 5 the statements, 6 the commit, 7 the pause, 8-9 the
    locks again.  Here the device refuses the config lock after the
    commit. *)
Definition relock_refused : environment :=
  faulty 8 (Raises (PanXapiError "config lock held by admin2")).

(** Without session locking the commit is call 4; here it times out. *)
Definition commit_times_out : environment :=
  faulty 4 (Raises (OtherError "ReadTimeout" "commit timed out")).

(** The device answers the backup command (call 1) with status [error]. *)
Definition backup_rejected : environment :=
  faulty 1 (Reports "error").

(** The device answers the load command of a replace (call 4, after the
    backup, the key and the upload) with status [error]. *)
Definition load_rejected : environment :=
  faulty 4 (Reports "error").

(** Without session locking the commit of a rollback that follows
    [Open; merge_a_b; CommitConfig] is call 8; here it times out. *)
Definition rollback_commit_times_out : environment :=
  faulty 8 (Raises (OtherError "ReadTimeout" "commit timed out")).

(** The device refuses the commit lock (call 1 on a fresh lock). *)
Definition commit_lock_refused : environment :=
  faulty 1 (Raises (PanXapiError "commit lock held by admin2")).

(** ** Vocabulary of the properties *)

Definition is_stage (o : operation) : bool :=
  match o with
  | LoadReplaceCandidate _ _ | LoadMergeCandidate _ _ => true
  | _ => false
  end.

Definition is_commit (o : operation) : bool :=
  match o with CommitConfig _ => true | _ => false end.

Definition is_discard (o : operation) : bool :=
  match o with DiscardConfig => true | _ => false end.

Definition is_rollback (o : operation) : bool :=
  match o with Rollback => true | _ => false end.

(** The state table of the transaction flags, read on one transition:
    which operation may move [loaded] and [changed], in which direction,
    and only when it returns. *)
Definition follows_flag_table (t : transition) : bool :=
  let o := performed t in
  let ok := is_ok (result t) in
  let l := loaded (before t) in
  let l' := loaded (after t) in
  let c := changed (before t) in
  let c' := changed (after t) in
  implb (negb l && l') (is_stage o && ok)
  && implb (l && negb l')
       ((is_commit o || is_discard o || is_rollback o) && ok)
  && implb (negb c && c') (is_commit o && ok)
  && implb (c && negb c') (is_rollback o)
  && implb (negb ok) (Bool.eqb l l' && Bool.eqb c c').

(** A [commit_config] with session locking enabled that raised after it
    had committed the staged candidate: [loaded] was true and is false,
    [changed] is true. *)
Definition raised_after_commit (t : transition) : bool :=
  is_commit (performed t)
  && negb (is_ok (result t))
  && _session_config_lock (before t)
  && loaded (before t)
  && negb (loaded (after t))
  && changed (after t).

(** A command of the XML channel that takes or releases one of the two
    device locks. *)
Definition is_lock_command (e : event) : bool :=
  match e with
  | Event c =>
      match c with
      | XapiOp cmd =>
          String.prefix "<request><config-lock>" cmd
          || String.prefix "<request><commit-lock>" cmd
      | _ => false
      end
  end.

(** A command of the XML channel that saves a configuration snapshot. *)
Definition is_save_command (e : event) : bool :=
  match e with
  | Event c =>
      match c with
      | XapiOp cmd => String.prefix "<save><config><to>" cmd
      | _ => false
      end
  end.

(** The steps of staging that change the device: the file upload, the
    load into the candidate, the statements sent over the shell. *)
Definition is_mutating (e : event) : bool :=
  match e with
  | Event c =>
      match c with
      | ImportPost _ _ _ => true
      | XapiOp cmd => String.prefix "<load><config><from>" cmd
      | SshSendConfigSet _ => true
      | _ => false
      end
  end.

(** [tr'] is [tr] followed by the calls [new] (most recent first). *)
Definition extends (tr : trace) (new : list event) (tr' : trace) : Prop :=
  tr' = new ++ tr.

(** From [(self, tr)] to [(self', tr')] the driver's lock object is the
    same, flag included, and no lock command was sent. *)
Definition leaves_locks_alone (self : PANOSDriver) (tr : trace)
    (self' : PANOSDriver) (tr' : trace) : Prop :=
  _lock_object self' = _lock_object self
  /\ exists new,
       extends tr new tr'
       /\ forallb (fun e => negb (is_lock_command e)) new = true.

(** ** Vocabulary of the further properties *)

(** The call that opens the shell channel. *)
Definition is_connect (e : event) : bool :=
  match e with
  | Event c =>
      match c with
      | ConnectHandler _ _ _ => true
      | _ => false
      end
  end.

(** The operations that work over the shell channel. *)
Definition uses_shell (o : operation) : bool :=
  match o with
  | LoadMergeCandidate _ _ | CompareConfig | CommitConfig _ | Rollback => true
  | _ => false
  end.

Definition is_close (o : operation) : bool :=
  match o with Close => true | _ => false end.

(** A staged or committed transaction has a backup file to go back to. *)
Definition has_safety_net (self : PANOSDriver) : Prop :=
  loaded self = true \/ changed self = true -> backup_file self <> None.

(** The [AttributeError] of reading [self.backup_file] before line 406 has
    created it. *)
Definition no_backup_file : exn :=
  AttributeError "'PANOSDriver' object has no attribute 'backup_file'".

(** Every character of [s] passes the test [ok]. *)
Fixpoint all_chars (ok : ascii -> bool) (s : string) : bool :=
  match s with
  | EmptyString => true
  | String c r => ok c && all_chars ok r
  end.

Definition no_slash (s : string) : bool :=
  all_chars (fun c => negb (Ascii.eqb c "/"%char)) s.



(** The dict that [get_config] builds when it reads nothing. *)
Definition empty_configs : gmap string string :=
  <[ "startup" := "" ]> (<[ "candidate" := "" ]> (<[ "running" := "" ]> ∅)).

(** The save command for a backup file. *)
Definition save_cmd (to : string) : string :=
  "<save><config><to>" +:+ to +:+ "</to></config></save>".

(** ** Further concrete sessions *)

(** The device refuses to release the commit lock (call 1 of an
    [unlock()] on an empty trace). *)
Definition commit_release_refused : environment :=
  faulty 1 (Raises (PanXapiError "commit lock not found")).

(** The file of a merge (call 1, after the pan.xapi session) cannot be
    read. *)
Definition file_missing : environment :=
  faulty 1 (Raises (IOError "No such file or directory")).

(** A replace staged on top of a merge (calls 4-6: key, upload, load), and
    a commit (call 7) that times out. *)
Definition replace_new_xml : operation :=
  LoadReplaceCandidate (Some "/tmp/new.xml") None.

Definition second_commit_times_out : environment :=
  faulty 7 (Raises (OtherError "ReadTimeout" "commit timed out")).

(** After [Open; merge_a_b; CommitConfig] the load of a rollback is call
    6; here the device answers it with status [error]. *)
Definition rollback_load_rejected : environment :=
  faulty 6 (Reports "error").

(** ** Parsed device answers *)

(** What [xmltodict.parse] builds from an answer and what [json.dumps]
    followed by [json.loads] hands back unchanged: [None] for an empty
    element, a string for text, a list for a repeated element, a dict with
    string keys for an element with children or attributes. *)
#[local] Unset Elimination Schemes.

Inductive json : Type :=
| JNone
| JStr (s : string)
| JList (items : list json)
| JDict (entries : list (string * json)).

#[local] Set Elimination Schemes.

(** The value under a key of a dict, the first one if the key repeats. *)
Fixpoint entry_of (key : string) (entries : list (string * json)) : option json :=
  match entries with
  | [] => None
  | (k, v) :: rest => if String.eqb k key then Some v else entry_of key rest
  end.

Definition KeyError (key : string) : exn := OtherError "KeyError" key.

Definition TypeError (msg : string) : exn := OtherError "TypeError" msg.

Definition ValueError (msg : string) : exn := OtherError "ValueError" msg.

Definition is_key_error (e : exn) : bool :=
  match e with
  | OtherError class _ => String.eqb class "KeyError"
  | _ => false
  end.

(** The Python operations that the getters apply to parsed answers, with
    the exception each raises on a value of the wrong type (messages as
    CPython 3.10 words them). *)
Module Dyn.

(** [v[key]] for a string [key]. *)
Definition subscript {St} (v : json) (key : string) : M St json :=
  match v with
  | JDict entries =>
      match entry_of key entries with
      | Some x => ret x
      | None => raise (KeyError key)
      end
  | JList _ =>
      raise (TypeError "list indices must be integers or slices, not str")
  | JStr _ => raise (TypeError "string indices must be integers")
  | JNone => raise (TypeError "'NoneType' object is not subscriptable")
  end.

(** [v.get(key)] *)
Definition get_method {St} (v : json) (key : string) : M St json :=
  match v with
  | JDict entries =>
      match entry_of key entries with
      | Some x => ret x
      | None => ret JNone
      end
  | JList _ => raise (AttributeError "'list' object has no attribute 'get'")
  | JStr _ => raise (AttributeError "'str' object has no attribute 'get'")
  | JNone => raise (AttributeError "'NoneType' object has no attribute 'get'")
  end.

(** The characters of a string, as [for c in s] yields them. *)
Fixpoint chars (s : string) : list json :=
  match s with
  | EmptyString => []
  | String c r => JStr (String c EmptyString) :: chars r
  end.

(** [for x in v] *)
Definition iterate {St} (v : json) : M St (list json) :=
  match v with
  | JList items => ret items
  | JDict entries => ret (map (fun kv => JStr (fst kv)) entries)
  | JStr s => ret (chars s)
  | JNone => raise (TypeError "'NoneType' object is not iterable")
  end.

(** [isinstance(v, dict)] *)
Definition is_dict (v : json) : bool :=
  match v with JDict _ => true | _ => false end.

(** [v is not None] *)
Definition is_not_none (v : json) : bool :=
  match v with JNone => false | _ => true end.

(** [needle in v] for a string [needle]. *)
Definition contains {St} (needle : string) (v : json) : M St bool :=
  match v with
  | JStr s =>
      ret (match String.index 0 needle s with Some _ => true | None => false end)
  | JList items =>
      ret (existsb (fun x => match x with
                             | JStr s => String.eqb s needle
                             | _ => false
                             end) items)
  | JDict entries => ret (existsb (fun kv => String.eqb (fst kv) needle) entries)
  | JNone => raise (TypeError "argument of type 'NoneType' is not iterable")
  end.

(** [v == s] for a string [s]. *)
Definition equals_str (v : json) (s : string) : bool :=
  match v with
  | JStr x => String.eqb x s
  | _ => false
  end.

(** [v] used as a dict key: a string or [None] hashes, a list or a dict
    does not. *)
Definition as_key {St} (v : json) : M St (option string) :=
  match v with
  | JStr s => ret (Some s)
  | JNone => ret None
  | JList _ => raise (TypeError "unhashable type: 'list'")
  | JDict _ => raise (TypeError "unhashable type: 'dict'")
  end.

Definition key_eqb (a b : option string) : bool :=
  match a, b with
  | Some x, Some y => String.eqb x y
  | None, None => true
  | _, _ => false
  end.

(** [if key not in d.keys(): d[key] = []] on a dict of lists, kept in
    insertion order. *)
Fixpoint ensure_key {A} (key : option string)
    (d : list (option string * list A)) : list (option string * list A) :=
  match d with
  | [] => [(key, [])]
  | (k, xs) :: rest =>
      if key_eqb k key then d else (k, xs) :: ensure_key key rest
  end.

(** [d[key].append(x)]; the key is there. *)
Fixpoint append_at {A} (key : option string) (x : A)
    (d : list (option string * list A)) : list (option string * list A) :=
  match d with
  | [] => []
  | (k, xs) :: rest =>
      if key_eqb k key then (k, xs ++ [x]) :: rest
      else (k, xs) :: append_at key x rest
  end.

End Dyn.

(** [for x in xs: acc = body acc x], for loops that build a local value. *)
Fixpoint fold_each {St A B} (xs : list A) (acc : B) (body : B -> A -> M St B)
    : M St B :=
  match xs with
  | [] => ret acc
  | x :: rest => acc' <- body acc x ;; fold_each rest acc' body
  end.

(** The entries [n] of line 560-562. *)
Record lldp_neighbor : Type := {
  nb_hostname : json;
  nb_port : json
}.

(** The entries [d] of lines 599-611. *)
Record route_details : Type := {
  current_active : bool;
  last_active : bool;
  age : Z;
  next_hop : json;
  protocol : string;
  outgoing_interface : json;
  preference : Z;
  inactive_reason : string;
  routing_table : json;
  selected_next_hop : bool;
  protocol_attributes : list (string * json)
}.

(** ** The getters over parsed answers *)

Section Getters.

Variable env : environment.

(** [xmltodict.parse] on the text of an answer: the parsed value, or the
    exception it raises. *)
Variable xmltodict_parse : string -> json + exn.

(** [int(s)] for a string [s]; [None] when it raises [ValueError]. *)
Variable py_int : string -> option Z.

Definition parse_answer (xml : string) : M PANOSDriver json :=
  match xmltodict_parse xml with
  | inl v => ret v
  | inr e => raise e
  end.

(** [int(v)] for a parsed value that is not [None]. *)
Definition int_of (v : json) : M PANOSDriver Z :=
  match v with
  | JStr s =>
      match py_int s with
      | Some n => ret n
      | None =>
          raise (ValueError
            ("invalid literal for int() with base 10: '" +:+ s +:+ "'"))
      end
  | JNone =>
      raise (TypeError "int() argument must be a string, a bytes-like object or a real number, not 'NoneType'")
  | JList _ =>
      raise (TypeError "int() argument must be a string, a bytes-like object or a real number, not 'list'")
  | JDict _ =>
      raise (TypeError "int() argument must be a string, a bytes-like object or a real number, not 'dict'")
  end.

(** Lines 534-537, 586-591: send the command, parse the answer, descend to
    [response/result/entry]. *)
Definition result_entry (cmd : string) : M PANOSDriver json :=
  device_call env "op" (XapiOp cmd) ;;
  xml <- device_call env "xml_root" XapiXmlRoot ;;
  parsed <- parse_answer xml ;;
  response <- Dyn.subscript parsed "response" ;;
  result <- Dyn.subscript response "result" ;;
  Dyn.subscript result "entry".

(** Lines 541-563 of [get_lldp_neighbors]: from the table to the dict. *)
Definition lldp_neighbors_of (lldp_table : json)
    : M PANOSDriver (list (option string * list lldp_neighbor)) :=
  let neighbors := [] in
  let lldp_table :=
    if Dyn.is_dict lldp_table then JList [lldp_table] else lldp_table in
  lldp_items <- Dyn.iterate lldp_table ;;
  fold_each lldp_items neighbors (fun neighbors lldp_item =>
    name <- Dyn.subscript lldp_item "@name" ;;
    local_int <- Dyn.as_key name ;;
    let neighbors := Dyn.ensure_key local_int neighbors in
    lldp_neighs <-
      try_except
        (found <- Dyn.get_method lldp_item "neighbors" ;;
         Dyn.get_method found "entry")
        (fun e =>
           match e with
           | AttributeError _ => ret (JStr "")
           | _ => raise e
           end) ;;
    let lldp_neighs :=
      if Dyn.is_dict lldp_neighs then JList [lldp_neighs] else lldp_neighs in
    each <- Dyn.iterate lldp_neighs ;;
    fold_each each neighbors (fun neighbors neighbor =>
      hostname <- Dyn.subscript neighbor "system-name" ;;
      port <- Dyn.subscript neighbor "port-id" ;;
      let n := {| nb_hostname := hostname; nb_port := port |} in
      ret (Dyn.append_at local_int n neighbors))).

(** [get_lldp_neighbors] (lines 527-564). *)
Definition get_lldp_neighbors
    : M PANOSDriver (list (option string * list lldp_neighbor)) :=
  let cmd := "<show><lldp><neighbors>all</neighbors></lldp></show>" in
  lldp_table <-
    try_except (result_entry cmd)
      (fun e =>
         match e with
         | AttributeError _ => ret (JList [])
         | _ => raise e
         end) ;;
  lldp_neighbors_of lldp_table.

Definition route_defaults : route_details :=
  {| current_active := false;
     last_active := false;
     age := (-1)%Z;
     next_hop := JStr "";
     protocol := "";
     outgoing_interface := JStr "";
     preference := (-1)%Z;
     inactive_reason := "";
     routing_table := JStr "default";
     selected_next_hop := false;
     protocol_attributes := [] |}.

Definition set_current_active (b : bool) (d : route_details) : route_details :=
  {| current_active := b; last_active := last_active d; age := age d;
     next_hop := next_hop d; protocol := protocol d;
     outgoing_interface := outgoing_interface d; preference := preference d;
     inactive_reason := inactive_reason d; routing_table := routing_table d;
     selected_next_hop := selected_next_hop d;
     protocol_attributes := protocol_attributes d |}.

Definition set_protocol (p : string) (d : route_details) : route_details :=
  {| current_active := current_active d; last_active := last_active d;
     age := age d; next_hop := next_hop d; protocol := p;
     outgoing_interface := outgoing_interface d; preference := preference d;
     inactive_reason := inactive_reason d; routing_table := routing_table d;
     selected_next_hop := selected_next_hop d;
     protocol_attributes := protocol_attributes d |}.

Definition set_age (n : Z) (d : route_details) : route_details :=
  {| current_active := current_active d; last_active := last_active d;
     age := n; next_hop := next_hop d; protocol := protocol d;
     outgoing_interface := outgoing_interface d; preference := preference d;
     inactive_reason := inactive_reason d; routing_table := routing_table d;
     selected_next_hop := selected_next_hop d;
     protocol_attributes := protocol_attributes d |}.

Definition set_next_hop (v : json) (d : route_details) : route_details :=
  {| current_active := current_active d; last_active := last_active d;
     age := age d; next_hop := v; protocol := protocol d;
     outgoing_interface := outgoing_interface d; preference := preference d;
     inactive_reason := inactive_reason d; routing_table := routing_table d;
     selected_next_hop := selected_next_hop d;
     protocol_attributes := protocol_attributes d |}.

Definition set_outgoing_interface (v : json) (d : route_details) : route_details :=
  {| current_active := current_active d; last_active := last_active d;
     age := age d; next_hop := next_hop d; protocol := protocol d;
     outgoing_interface := v; preference := preference d;
     inactive_reason := inactive_reason d; routing_table := routing_table d;
     selected_next_hop := selected_next_hop d;
     protocol_attributes := protocol_attributes d |}.

Definition set_preference (n : Z) (d : route_details) : route_details :=
  {| current_active := current_active d; last_active := last_active d;
     age := age d; next_hop := next_hop d; protocol := protocol d;
     outgoing_interface := outgoing_interface d; preference := n;
     inactive_reason := inactive_reason d; routing_table := routing_table d;
     selected_next_hop := selected_next_hop d;
     protocol_attributes := protocol_attributes d |}.

Definition set_routing_table (v : json) (d : route_details) : route_details :=
  {| current_active := current_active d; last_active := last_active d;
     age := age d; next_hop := next_hop d; protocol := protocol d;
     outgoing_interface := outgoing_interface d; preference := preference d;
     inactive_reason := inactive_reason d; routing_table := v;
     selected_next_hop := selected_next_hop d;
     protocol_attributes := protocol_attributes d |}.

(** [if flag in flags: d["protocol"] = name] *)
Definition protocol_if (flag name : string) (flags : json) (d : route_details)
    : M PANOSDriver route_details :=
  found <- Dyn.contains flag flags ;;
  ret (if found then set_protocol name d else d).

(** Lines 599-642 of [get_route_to]: the details of one route, with its
    destination. *)
Definition route_of (route : json) : M PANOSDriver (json * route_details) :=
  let d := route_defaults in
  destination <- Dyn.subscript route "destination" ;;
  flags <- Dyn.subscript route "flags" ;;
  active <- Dyn.contains "A" flags ;;
  let d := if active then set_current_active true d
           else set_current_active false d in
  d <- protocol_if "C" "connect" flags d ;;
  d <- protocol_if "S" "static" flags d ;;
  d <- protocol_if "R" "rip" flags d ;;
  d <- protocol_if "R" "rip" flags d ;;
  d <- protocol_if "O" "ospf" flags d ;;
  d <- protocol_if "B" "bgp" flags d ;;
  d <- protocol_if "H" "host" flags d ;;
  v <- Dyn.subscript route "age" ;;
  d <- (if Dyn.is_not_none v then n <- int_of v ;; ret (set_age n d) else ret d) ;;
  v <- Dyn.subscript route "nexthop" ;;
  let d := if Dyn.is_not_none v then set_next_hop v d else d in
  v <- Dyn.subscript route "interface" ;;
  let d := if Dyn.is_not_none v then set_outgoing_interface v d else d in
  v <- Dyn.subscript route "metric" ;;
  d <- (if Dyn.is_not_none v then n <- int_of v ;; ret (set_preference n d)
        else ret d) ;;
  v <- Dyn.subscript route "virtual-router" ;;
  let d := if Dyn.is_not_none v then set_routing_table v d else d in
  ret (destination, d).

(** The command of lines 577-584. *)
Definition route_cmd (destination protocol : string) : string :=
  let destination :=
    if Py.truthy destination
    then "<destination>" +:+ destination +:+ "</destination>"
    else destination in
  let protocol :=
    if Py.truthy protocol then "<type>" +:+ protocol +:+ "</type>"
    else protocol in
  "<show><routing><route>" +:+ protocol +:+ destination
    +:+ "</route></routing></show>".

(** [get_route_to] (lines 566-648). *)
Definition get_route_to (destination protocol : string) (longer : bool)
    : M PANOSDriver (list (option string * list route_details)) :=
  if longer then
    raise (NotImplementedError "Longer is not implemented for this platform")
  else
    let routes := [] in
    let cmd := route_cmd destination protocol in
    routes_table <-
      try_except (result_entry cmd)
        (fun e =>
           match e with
           | AttributeError _ => ret (JList [])
           | _ => if is_key_error e then ret (JList []) else raise e
           end) ;;
    let routes_table :=
      if Dyn.is_dict routes_table then JList [routes_table] else routes_table in
    each <- Dyn.iterate routes_table ;;
    fold_each each routes (fun routes route =>
      found <- route_of route ;;
      destination <- Dyn.as_key (fst found) ;;
      let routes := Dyn.ensure_key destination routes in
      ret (Dyn.append_at destination (snd found) routes)).

End Getters.

(** [s.split(sep)] for a one-character [sep]. *)
Fixpoint split_from (sep : ascii) (cur : string) (s : string) : list string :=
  match s with
  | EmptyString => [cur]
  | String c r =>
      if Ascii.eqb c sep then cur :: split_from sep EmptyString r
      else split_from sep (cur +:+ String c EmptyString) r
  end.

(** [v.split("/")] *)
Definition split_slash {St} (v : json) : M St (list string) :=
  match v with
  | JStr s => ret (split_from "/"%char EmptyString s)
  | JNone => raise (AttributeError "'NoneType' object has no attribute 'split'")
  | JList _ => raise (AttributeError "'list' object has no attribute 'split'")
  | JDict _ => raise (AttributeError "'dict' object has no attribute 'split'")
  end.

(** [a, b = parts] *)
Definition unpack_pair {St} (parts : list string) : M St (string * string) :=
  match parts with
  | [a; b] => ret (a, b)
  | [] => raise (ValueError "not enough values to unpack (expected 2, got 0)")
  | [_] => raise (ValueError "not enough values to unpack (expected 2, got 1)")
  | _ => raise (ValueError "too many values to unpack (expected 2)")
  end.

(** [d[key] = value] on a dict kept in insertion order. *)
Fixpoint dict_set {K A} (eqb : K -> K -> bool) (key : K) (value : A)
    (d : list (K * A)) : list (K * A) :=
  match d with
  | [] => [(key, value)]
  | (k, v) :: rest =>
      if eqb k key then (k, value) :: rest
      else (k, v) :: dict_set eqb key value rest
  end.

(** The dict [_ip_info[intf]] of lines 756-789: the addresses of each
    family with their prefix length; [None] while the family has no key. *)
Record ip_info : Type := {
  ipv4 : option (list (string * Z));
  ipv6 : option (list (string * Z))
}.

(** [info.setdefault("ipv4", {})[address] = {"prefix_length": n}] *)
Definition set_ipv4 (address : string) (n : Z) (info : ip_info) : ip_info :=
  {| ipv4 := Some (dict_set String.eqb address n (default [] (ipv4 info)));
     ipv6 := ipv6 info |}.

Definition set_ipv6 (address : string) (n : Z) (info : ip_info) : ip_info :=
  {| ipv4 := ipv4 info;
     ipv6 := Some (dict_set String.eqb address n (default [] (ipv6 info))) |}.

Section IpGetter.

Variable env : environment.
Variable xmltodict_parse : string -> json + exn.
Variable py_int : string -> option Z.

(** [address, pref = v.split("/")] followed by [int(pref)]. *)
Definition address_and_prefix (v : json) : M PANOSDriver (string * Z) :=
  parts <- split_slash v ;;
  pair <- unpack_pair parts ;;
  n <- int_of py_int (JStr (snd pair)) ;;
  ret (fst pair, n).

(** Lines 769-778 and 781-789: the members of [addr] or [addr6]. *)
Definition add_members (set : string -> Z -> ip_info -> ip_info)
    (group : json) (info : ip_info) : M PANOSDriver ip_info :=
  members <- Dyn.subscript group "member" ;;
  let members :=
    match members with
    | JList items => items
    | _ => [members]
    end in
  fold_each members info (fun info address =>
    found <- address_and_prefix address ;;
    ret (set (fst found) (snd found) info)).

(** [extract_ip_info] (lines 714-795); [None] is the empty dict it
    returns for an interface without addresses. *)
Definition extract_ip_info (parsed_intf_dict : json)
    : M PANOSDriver (option (option string * ip_info)) :=
  name <- Dyn.subscript parsed_intf_dict "name" ;;
  intf <- Dyn.as_key name ;;
  let info := {| ipv4 := None; ipv6 := None |} in
  v4_ip <- Dyn.get_method parsed_intf_dict "ip" ;;
  secondary_v4_ip <- Dyn.get_method parsed_intf_dict "addr" ;;
  v6_ip <- Dyn.get_method parsed_intf_dict "addr6" ;;
  info <- (if negb (Dyn.equals_str v4_ip "N/A")
           then
             found <- address_and_prefix v4_ip ;;
             ret (set_ipv4 (fst found) (snd found) info)
           else ret info) ;;
  info <- (if Dyn.is_not_none secondary_v4_ip
           then add_members set_ipv4 secondary_v4_ip info
           else ret info) ;;
  info <- (if Dyn.is_not_none v6_ip
           then add_members set_ipv6 v6_ip info
           else ret info) ;;
  match ipv4 info, ipv6 info with
  | None, None => ret None
  | _, _ => ret (Some (intf, info))
  end.

(** [get_interfaces_ip] (lines 711-816). *)
Definition get_interfaces_ip : M PANOSDriver (list (option string * ip_info)) :=
  let ip_interfaces := [] in
  let cmd := "<show><interface>all</interface></show>" in
  device_call env "op" (XapiOp cmd) ;;
  xml <- device_call env "xml_root" XapiXmlRoot ;;
  parsed <- parse_answer xmltodict_parse xml ;;
  response <- Dyn.subscript parsed "response" ;;
  result <- Dyn.subscript response "result" ;;
  ifnet <- Dyn.subscript result "ifnet" ;;
  interface_info <- Dyn.subscript ifnet "entry" ;;
  let interface_info :=
    if Dyn.is_dict interface_info then JList [interface_info]
    else interface_info in
  each <- Dyn.iterate interface_info ;;
  fold_each each ip_interfaces (fun ip_interfaces interface_dict =>
    ip_info <- extract_ip_info interface_dict ;;
    match ip_info with
    | Some (intf, info) => ret (dict_set Dyn.key_eqb intf info ip_interfaces)
    | None => ret ip_interfaces
    end).

End IpGetter.

(** Decimal digits only: a stand-in for [int] in concrete runs. *)
Fixpoint digits_value (acc : Z) (s : string) : option Z :=
  match s with
  | EmptyString => Some acc
  | String c r =>
      let n := nat_of_ascii c in
      if Nat.leb 48 n && Nat.leb n 57
      then digits_value (10 * acc + Z.of_nat (n - 48))%Z r
      else None
  end.

Definition int_of_digits (s : string) : option Z :=
  match s with
  | EmptyString => None
  | _ => digits_value 0%Z s
  end.

(** ** Vocabulary of the getters' properties *)

(** The flag character occurs in the flags of a route. *)
Definition has_flag (flag flags : string) : bool :=
  match String.index 0 flag flags with Some _ => true | None => false end.

(** The protocol by precedence of the flags: host, bgp, ospf, rip, static,
    connect, none. *)
Definition protocol_by_precedence (flags : string) : string :=
  if has_flag "H" flags then "host"
  else if has_flag "B" flags then "bgp"
  else if has_flag "O" flags then "ospf"
  else if has_flag "R" flags then "rip"
  else if has_flag "S" flags then "static"
  else if has_flag "C" flags then "connect"
  else "".

(** A numeric field of a route: the default when the device gives
    nothing, the number when it gives digits [int] accepts. *)
Definition number_or (py_int : string -> option Z) (default : Z) (v : json)
    : option Z :=
  match v with
  | JNone => Some default
  | JStr s => py_int s
  | _ => None
  end.

(** A field of a route that is copied: the default when the device gives
    nothing. *)
Definition value_or (default : json) (v : json) : json :=
  match v with JNone => default | _ => v end.

(** The parsed neighbor [item] carries the system name and port of [n]. *)
Definition describes (item : json) (n : lldp_neighbor) : Prop :=
  exists fields,
    item = JDict fields
    /\ entry_of "system-name" fields = Some (nb_hostname n)
    /\ entry_of "port-id" fields = Some (nb_port n).

(** An answer whose [response/result] is [result]. *)
Definition answer_with (result : json) : json :=
  JDict [("response", JDict [("@status", JStr "success"); ("result", result)])].

(** An interface entry without a usable list of neighbors: no [neighbors]
    child, or one that is empty or plain text. *)
Definition without_neighbors (fields : list (string * json)) : Prop :=
  match entry_of "neighbors" fields with
  | None | Some JNone | Some (JStr _) | Some (JList _) => True
  | Some (JDict _) => False
  end.

(** A computation that makes no call and leaves the object alone. *)
Definition is_pure {St A} (m : M St A) : Prop :=
  forall s tr, exists r, m s tr = (r, s, tr).

(** ** Concrete answers for the getters *)

(** A parser that reads every answer as [v]. *)
Definition parses_to (v : json) : string -> json + exn := fun _ => inl v.

(** One interface with one neighbor, both collapsed to dicts. *)
Definition lldp_interface : list (string * json) :=
  [("@name", JStr "ethernet1/1");
   ("neighbors",
    JDict [("entry",
            JDict [("@name", JStr "0");
                   ("system-name", JStr "sw1");
                   ("port-id", JStr "Gi0/1")])])].

(** A static route that is active, with no age. *)
Definition static_route : list (string * json) :=
  [("virtual-router", JStr "vr1");
   ("destination", JStr "10.0.0.0/8");
   ("nexthop", JStr "10.1.1.1");
   ("metric", JStr "10");
   ("flags", JStr "A S");
   ("age", JNone);
   ("interface", JStr "ethernet1/1")].

(** A computation that may make calls but leaves the object alone. *)
Definition keeps_state {St A} (m : M St A) : Prop :=
  forall s tr r s' tr', m s tr = (r, s', tr') -> s' = s.

(** An interface with a primary IPv4 address and nothing else. *)
Definition addressed_interface : list (string * json) :=
  [("name", JStr "ethernet1/5");
   ("zone", JNone);
   ("ip", JStr "169.254.0.1/30");
   ("id", JStr "20")].

(** ** Proof tools *)

(** Unfold the monad so that a method body becomes a nest of matches on
    the environment's answers. *)
Ltac unfold_monad :=
  unfold bind, ret, raise, get, modify, try_except, ext, sleep, now_date,
    reraise_connection in *.

(** Split on the next answer of the environment. *)
Ltac split_answer :=
  match goal with
  | |- context [respond ?e ?R ?tr ?c] =>
      let H := fresh "Hanswer" in
      destruct (respond e R tr c) as [? | []] eqn:H
  end.

Ltac unfold_methods :=
  unfold perform, open, close, is_alive, load_replace_candidate,
    load_merge_candidate, get_config, compare_config, commit_config,
    discard_config, rollback, _send_merge_commands, _get_file_content,
    _get_running, _get_candidate, _import_file, _save_backup, ensure_ssh,
    _open_ssh, read_backup_file, device_call, on_lock_object, lock, unlock,
    for_each, LOCK_TYPES in *.

(** Split on the next thing a method body branches on: a field, a test on
    an argument, an answer of the environment. *)
Ltac split_match :=
  match goal with
  | x : PANOSLock |- _ => destruct x
  | |- context [match ?x with _ => _ end] => is_var x; destruct x
  | |- context [negb ?x] => is_var x; destruct x
  | |- context [Py.truthy ?s] => destruct (Py.truthy s) eqn:?
  | |- context [Py.truthy_opt ?s] => destruct (Py.truthy_opt s) eqn:?
  | |- context [config_truthy ?s] => destruct (config_truthy s) eqn:?
  | |- context [is_success ?s] => destruct (is_success s) eqn:?
  | |- context [String.eqb ?a ?b] => destruct (String.eqb a b) eqn:?
  | |- context [respond ?e ?R ?tr ?c] =>
      let H := fresh "Hanswer" in
      destruct (respond e R tr c) as [? | ?] eqn:H
  end.

(** Run a method on a driver given by its fields, through every branch. *)
Ltac run_method := unfold_methods; unfold_monad; repeat (simpl; split_match).

Lemma extends_nil (tr : trace) : extends tr [] tr.
Proof. reflexivity. Qed.

Lemma extends_cons (tr tr' : trace) (new : list event) (e : event) :
  extends tr new tr' -> extends tr (e :: new) (e :: tr').
Proof. unfold extends. intros ->. reflexivity. Qed.

(** Read off the calls that a branch added to the trace. *)
Ltac solve_extends := repeat first [apply extends_nil | apply extends_cons].

Ltac locks_alone :=
  split; [reflexivity | eexists; split; [solve_extends | reflexivity]].

(** * The lock manager *)

Section LockManager.

Variable env : environment.

Lemma lock_when_locked (self : PANOSLock) (tr : trace) :
  locked self = true -> lock env self tr = (Ok tt, self, tr).
Proof.
  intros Hl. unfold lock. unfold_monad. now rewrite Hl.
Qed.

Lemma lock_ok_locked (self self' : PANOSLock) (tr tr' : trace) :
  lock env self tr = (Ok tt, self', tr') -> locked self' = true.
Proof.
  unfold lock, for_each, LOCK_TYPES. unfold_monad.
  destruct (locked self) eqn:Hl.
  - intros [= <- <-]. exact Hl.
  - repeat split_answer; simpl; intros [= <- <-]; reflexivity.
Qed.

Lemma lock_ok_inv (l l' : PANOSLock) (tr tr' : trace) :
  lock env l tr = (Ok tt, l', tr') ->
  locked l = false ->
  locked l' = true
  /\ tr' = Event (XapiOp (TAKE_LOCK_API_CMD "commit" (_lock_comment l)))
         :: Event (XapiOp (TAKE_LOCK_API_CMD "config" (_lock_comment l)))
         :: tr.
Proof.
  intros Hlock Hl. revert Hlock.
  unfold lock, for_each, LOCK_TYPES. unfold_monad. rewrite Hl.
  repeat split_answer; simpl; intros [= <- <-]; split; reflexivity.
Qed.

(** C6: [lock()] asks for the config lock first and the commit lock
    second.  When the device refuses one of them ([PanXapiError]), the
    call raises at once a [LockError] that names the refused lock, the
    [locked] flag is still false, and the trace holds only the take
    commands sent so far: no release command follows, not even for a
    config lock that was already granted. *)
Theorem lock_order_and_failure (self : PANOSLock) (tr : trace) :
  locked self = false ->
  let take_config := XapiOp (TAKE_LOCK_API_CMD "config" (_lock_comment self)) in
  let take_commit := XapiOp (TAKE_LOCK_API_CMD "commit" (_lock_comment self)) in
  (forall msg,
      respond env _ tr take_config = inr (PanXapiError msg) ->
      let '(r, self', tr') := lock env self tr in
      r = Exn (LockError ("Failed to aquire config-lock: " +:+ msg))
      /\ locked self' = false
      /\ tr' = Event take_config :: tr)
  /\ (forall status msg,
      respond env _ tr take_config = inl status ->
      respond env _ (Event take_config :: tr) take_commit
        = inr (PanXapiError msg) ->
      let '(r, self', tr') := lock env self tr in
      r = Exn (LockError ("Failed to aquire commit-lock: " +:+ msg))
      /\ locked self' = false
      /\ tr' = Event take_commit :: Event take_config :: tr)
  /\ (forall status status',
      respond env _ tr take_config = inl status ->
      respond env _ (Event take_config :: tr) take_commit = inl status' ->
      let '(r, self', tr') := lock env self tr in
      r = Ok tt
      /\ locked self' = true
      /\ tr' = Event take_commit :: Event take_config :: tr).
Proof.
  intros Hl take_config take_commit. subst take_config take_commit.
  unfold lock, for_each, LOCK_TYPES. unfold_monad. rewrite Hl.
  repeat split; intros *.
  - intros ->. auto.
  - intros -> ->. auto.
  - intros -> ->. auto.
Qed.

(** C7: [lock()] on a lock whose flag is set sends nothing and returns;
    so a second [lock()] right after a first one that returned adds no
    command to the two the first one sent.  [unlock()] on a lock whose
    flag is clear sends nothing. *)
Theorem lock_unlock_idempotent (self : PANOSLock) (tr : trace) :
  (locked self = true -> lock env self tr = (Ok tt, self, tr))
  /\ (locked self = false ->
      forall self' tr',
        lock env self tr = (Ok tt, self', tr') ->
        (lock env ;; lock env) self tr = (Ok tt, self', tr')
        /\ tr' = Event (XapiOp (TAKE_LOCK_API_CMD "commit" (_lock_comment self)))
               :: Event (XapiOp (TAKE_LOCK_API_CMD "config" (_lock_comment self)))
               :: tr)
  /\ (locked self = false -> unlock env self tr = (Ok tt, self, tr)).
Proof.
  split; [apply lock_when_locked | split].
  - intros Hl self' tr' Hfirst. split.
    + unfold bind at 1. rewrite Hfirst.
      apply lock_when_locked. eapply lock_ok_locked; eauto.
    + revert Hfirst. unfold lock, for_each, LOCK_TYPES. unfold_monad.
      rewrite Hl. repeat split_answer; simpl; intros [= <- <-]; reflexivity.
  - intros Hl. unfold unlock. unfold_monad. now rewrite Hl.
Qed.

End LockManager.

(** * The transaction flags *)

Section TransactionFlags.

Variable env : environment.

(** One public operation, from any driver state: the flags move as the
    table says, or the operation is a [commit_config] that raised after
    its commit had gone through. *)
Lemma step_follows_table (o : operation) (self : PANOSDriver) (tr : trace) :
  let '(r, self', _) := perform env o self tr in
  let t := {| performed := o; before := self; result := r; after := self' |} in
  follows_flag_table t || raised_after_commit t = true.
Proof.
  destruct self as [h u p l c dv ssh mc lo sl slc ak bf].
  destruct o; run_method; simpl;
    try destruct l; try destruct c; reflexivity.
Qed.

Lemma session_follows_table (ops : list operation) :
  forall (self : PANOSDriver) (tr : trace),
    forallb (fun t => follows_flag_table t || raised_after_commit t)
      (session env ops self tr) = true.
Proof.
  induction ops as [| o rest IH]; intros self tr; [reflexivity |].
  cbn [session].
  pose proof (step_follows_table o self tr) as Hstep.
  destruct (perform env o self tr) as [[r self'] tr'].
  cbn [forallb]. rewrite Hstep. apply IH.
Qed.

(** When a [commit_config] that raises has moved a flag, session locking is
    enabled and the commit over the shell had returned: what raised is the
    step that takes the locks again. *)
Lemma commit_config_raises_after_commit (message : string)
    (self : PANOSDriver) (tr : trace) :
  let '(r, self', _) := commit_config env message self tr in
  is_ok r = false ->
  loaded self' <> loaded self \/ changed self' <> changed self ->
  _session_config_lock self = true
  /\ loaded self = true
  /\ exists self1 tr1 v,
       ensure_ssh env self tr = (Ok tt, self1, tr1)
       /\ respond env _ tr1 (SshCommit (Some message)) = inl v.
Proof.
  destruct self as [h u p l c dv ssh mc lo sl slc ak bf].
  run_method; simpl; intros Hr Hflags;
    try discriminate; try (destruct Hflags; congruence);
    repeat split; eauto.
Qed.

(** C1 (amended): a new driver has [loaded] and [changed] false, and in
    every sequence of public operations on it each operation moves the
    flags as the state table says: [loaded] becomes true only in a stage
    operation that returns, becomes false only in a commit, discard or
    rollback that returns, [changed] becomes true only in a commit that
    returns and false only in a rollback, and an operation that raises
    leaves both flags alone.  The one other transition is a
    [commit_config] with session locking enabled that raises after the
    staged candidate was committed: [loaded] is then false and [changed]
    true. *)
Theorem flags_follow_table
    (hostname username password : string) (optional : option optional_args)
    (ops : list operation) :
  let self := init hostname username password optional in
  loaded self = false
  /\ changed self = false
  /\ forallb (fun t => follows_flag_table t || raised_after_commit t)
       (session env ops self []) = true.
Proof.
  repeat split. apply session_follows_table.
Qed.

End TransactionFlags.

(** * Commit *)

Section Commit.

Variable env : environment.

(** C2: [commit_config] on a driver with [loaded] true, once the shell
    channel is open.  If the commit over the shell raises, the call
    raises [MergeConfigException] when [merge_config] is true and
    [ReplaceConfigException] when it is false, and [loaded] is still
    true ([changed] is as before).  If the commit returns, [loaded] is
    false and [changed] is true afterwards. *)
Theorem commit_config_outcome (message : string)
    (self self1 : PANOSDriver) (tr tr1 : trace) :
  loaded self = true ->
  ensure_ssh env self tr = (Ok tt, self1, tr1) ->
  (forall e,
      respond env _ tr1 (SshCommit (Some message)) = inr e ->
      let '(r, self', tr') := commit_config env message self tr in
      r = Exn (if merge_config self
               then MergeConfigException "Error while commiting config"
               else ReplaceConfigException "Error while commiting config")
      /\ loaded self' = true
      /\ changed self' = changed self)
  /\ (forall v,
      respond env _ tr1 (SshCommit (Some message)) = inl v ->
      let '(r, self', tr') := commit_config env message self tr in
      loaded self' = false
      /\ changed self' = true
      /\ (_session_config_lock self = false -> r = Ok tt)).
Proof.
  intros Hl Hssh.
  destruct self as [h u p l c dv ssh mc lo sl slc ak bf].
  simpl in Hl; subst l. revert Hssh.
  unfold_methods; unfold_monad; simpl.
  destruct ssh; simpl.
  - intros [= <- <-]. split; intros ? Hr; rewrite Hr; simpl.
    + destruct mc; auto.
    + repeat (simpl; split_match); simpl; repeat split; discriminate.
  - destruct (respond env _ tr (ConnectHandler h u p)) as [[] | e'] eqn:Hc;
      simpl; [| destruct e'; discriminate].
    intros [= <- <-]. split; intros ? Hr; rewrite Hr; simpl.
    + destruct mc; auto.
    + repeat (simpl; split_match); simpl; repeat split; discriminate.
Qed.

(** C4: with session locking enabled, a [commit_config] whose commit went
    through clears the [locked] flag of the lock object and runs [lock()]
    on it again, and when the call returns both take commands were sent
    after the commit and the flag is set.  When the commit fails (nothing
    staged, the shell channel does not open, the commit raises) no lock
    command is sent and the lock object is as before; the same holds in
    every case when session locking is disabled. *)
Theorem commit_config_relocks (message : string)
    (self : PANOSDriver) (tr : trace) :
  (_session_config_lock self = true ->
   forall self1 tr1 v l,
     loaded self = true ->
     ensure_ssh env self tr = (Ok tt, self1, tr1) ->
     respond env _ tr1 (SshCommit (Some message)) = inl v ->
     _lock_object self = Some l ->
     let committed := Event (Sleep 3) :: Event (SshCommit (Some message)) :: tr1 in
     let '(r, l', tr') := lock env (set_locked false l) committed in
     commit_config env message self tr
       = (r, set_lock_object (Some l') (set_changed true (set_loaded false self1)), tr')
     /\ (r = Ok tt ->
         locked l' = true
         /\ tr' = Event (XapiOp (TAKE_LOCK_API_CMD "commit" (_lock_comment l)))
                :: Event (XapiOp (TAKE_LOCK_API_CMD "config" (_lock_comment l)))
                :: committed))
  /\ (loaded self = false ->
      let '(r, self', tr') := commit_config env message self tr in
      is_ok r = false /\ leaves_locks_alone self tr self' tr')
  /\ (forall e self1 tr1,
      ensure_ssh env self tr = (Exn e, self1, tr1) ->
      let '(r, self', tr') := commit_config env message self tr in
      is_ok r = false /\ leaves_locks_alone self tr self' tr')
  /\ (forall e self1 tr1,
      ensure_ssh env self tr = (Ok tt, self1, tr1) ->
      respond env _ tr1 (SshCommit (Some message)) = inr e ->
      let '(r, self', tr') := commit_config env message self tr in
      is_ok r = false /\ leaves_locks_alone self tr self' tr')
  /\ (_session_config_lock self = false ->
      let '(r, self', tr') := commit_config env message self tr in
      leaves_locks_alone self tr self' tr').
Proof.
  destruct self as [h u p l c dv ssh mc lo sl slc ak bf]. simpl.
  repeat apply conj.
  - intros -> self1 tr1 v lk -> Hssh Hv ->. revert Hssh.
    unfold commit_config, ensure_ssh, _open_ssh, on_lock_object.
    unfold_monad. simpl.
    destruct ssh; simpl.
    + intros [= <- <-]. rewrite Hv. simpl.
      destruct (lock env (set_locked false lk) _) as [[r l'] tr'] eqn:Hlock.
      split; [reflexivity |]. intros ->.
      apply lock_ok_inv in Hlock; [| reflexivity]. exact Hlock.
    + destruct (respond env _ tr (ConnectHandler h u p)) as [[] | e'] eqn:Hc;
        simpl; [| destruct e'; discriminate].
      intros [= <- <-]. rewrite Hv. simpl.
      destruct (lock env (set_locked false lk) _) as [[r l'] tr'] eqn:Hlock.
      split; [reflexivity |]. intros ->.
      apply lock_ok_inv in Hlock; [| reflexivity]. exact Hlock.
  - intros ->. unfold commit_config. unfold_monad. simpl.
    split; [reflexivity | locks_alone].
  - intros e self1 tr1.
    unfold commit_config, ensure_ssh, _open_ssh, on_lock_object.
    unfold_monad. simpl.
    destruct l; simpl; [| intros _; split; [reflexivity | locks_alone]].
    destruct ssh; simpl; [discriminate |].
    destruct (respond env _ tr (ConnectHandler h u p)) as [[] | e'] eqn:Hc;
      simpl; [discriminate |].
    intros _. destruct e'; simpl; (split; [reflexivity | locks_alone]).
  - intros e self1 tr1.
    unfold commit_config, ensure_ssh, _open_ssh, on_lock_object.
    unfold_monad. simpl.
    destruct l; simpl; [| intros _ _; split; [reflexivity | locks_alone]].
    destruct ssh; simpl.
    + intros [= <- <-] ->. simpl.
      destruct mc; simpl; (split; [reflexivity | locks_alone]).
    + destruct (respond env _ tr (ConnectHandler h u p)) as [[] | e'] eqn:Hc;
        simpl; [| destruct e'; discriminate].
      intros [= <- <-] ->. simpl.
      destruct mc; simpl; (split; [reflexivity | locks_alone]).
  - intros ->.
    unfold commit_config, ensure_ssh, _open_ssh, on_lock_object.
    unfold_monad. simpl.
    repeat (simpl; split_match); simpl; locks_alone.
Qed.
End Commit.

(** * Staging and the backup snapshot *)

Section Staging.

Variable env : environment.

Lemma save_backup_failed (self self1 : PANOSDriver) (tr tr1 : trace) :
  _save_backup env self tr = (Ok false, self1, tr1) ->
  loaded self1 = loaded self
  /\ exists file,
       backup_file self1 = Some file
       /\ tr1 = Event (XapiOp ("<save><config><to>" +:+ file +:+ "</to></config></save>")) :: tr.
Proof.
  destruct self as [h u p l c dv ssh mc lo sl slc ak bf].
  run_method; intros [= <- <-]; simpl; split; try reflexivity; eauto.
Qed.

(** When [_save_backup] raises (the device is not open, or [device.op]
    raises), both stage operations let that exception through, again in
    the state and with the trace that [_save_backup] left. *)
Lemma backup_exception_blocks_staging
    (self self1 : PANOSDriver) (tr tr1 : trace) (e : exn)
    (filename : option string) (c : config_arg) (file_config : bool) :
  loaded self = false ->
  _save_backup env self tr = (Exn e, self1, tr1) ->
  (Py.truthy_opt filename = true ->
   load_replace_candidate env filename None self tr = (Exn e, self1, tr1))
  /\ _send_merge_commands env c file_config self tr = (Exn e, self1, tr1).
Proof.
  intros Hl Hsave. split.
  - intros Hf. unfold load_replace_candidate. rewrite Hf. cbn [config_truthy].
    unfold bind at 1. unfold get at 1. rewrite Hl. cbn [negb].
    unfold bind at 1. unfold bind at 1. rewrite Hsave. reflexivity.
  - unfold _send_merge_commands.
    unfold bind at 1. unfold get at 1. rewrite Hl. cbn [negb].
    unfold bind at 1. unfold bind at 1. rewrite Hsave. reflexivity.
Qed.

(** C3: staging on a driver with [loaded] false, when [_save_backup]
    returns [False].  [load_replace_candidate] raises
    [ReplaceConfigException] and [load_merge_candidate] raises
    [MergeConfigException], in the state and with the trace that
    [_save_backup] left: the save command is the last call made, so no
    file upload, no load command and no shell statement was issued, and
    [loaded] is still false. *)
Theorem backup_failure_blocks_staging
    (self self1 : PANOSDriver) (tr tr1 : trace) :
  loaded self = false ->
  (forall filename config,
      config_truthy config = false ->
      Py.truthy_opt filename = true ->
      _save_backup env self tr = (Ok false, self1, tr1) ->
      load_replace_candidate env filename config self tr
        = (Exn (ReplaceConfigException "Error while storing backup config"),
           self1, tr1))
  /\ (forall filename config,
      Py.truthy_opt filename = false ->
      config_truthy config = true ->
      _save_backup env self tr = (Ok false, self1, tr1) ->
      load_merge_candidate env filename config self tr
        = (Exn (MergeConfigException "Error while storing backup config."),
           self1, tr1))
  /\ (forall filename config content,
      Py.truthy_opt filename = true ->
      respond env _ tr (ReadFile (default "" filename)) = inl content ->
      _save_backup env self (Event (ReadFile (default "" filename)) :: tr)
        = (Ok false, self1, tr1) ->
      load_merge_candidate env filename config self tr
        = (Exn (MergeConfigException "Error while storing backup config."),
           self1, tr1))
  /\ (forall tr0,
      _save_backup env self tr0 = (Ok false, self1, tr1) ->
      loaded self1 = false
      /\ exists new,
           extends tr0 new tr1
           /\ forallb (fun e => negb (is_mutating e)) new = true).
Proof.
  intros Hl. repeat apply conj.
  - intros filename config Hc Hf Hsave.
    unfold load_replace_candidate. rewrite Hc, Hf.
    unfold bind at 1. unfold get at 1. rewrite Hl. cbn [negb].
    unfold bind at 1. unfold bind at 1. rewrite Hsave. reflexivity.
  - intros filename config Hf Hc Hsave.
    unfold load_merge_candidate. rewrite Hf.
    destruct config as [c |]; [| discriminate]. rewrite Hc.
    unfold _send_merge_commands.
    unfold bind at 1. unfold get at 1. rewrite Hl. cbn [negb].
    unfold bind at 1. unfold bind at 1. rewrite Hsave. reflexivity.
  - intros filename config content Hf Hread Hsave.
    unfold load_merge_candidate. rewrite Hf.
    unfold bind at 1. unfold _get_file_content, try_except, ext.
    rewrite Hread.
    unfold _send_merge_commands.
    unfold bind at 1. unfold get at 1. rewrite Hl. cbn [negb].
    unfold bind at 1. unfold bind at 1. rewrite Hsave. reflexivity.
  - intros tr0 Hsave.
    destruct (save_backup_failed _ _ _ _ Hsave) as (Hl1 & file & _ & ->).
    split; [congruence |].
    eexists; split; [solve_extends | reflexivity].
Qed.


(** C5: a save command is sent only by a stage operation that starts with
    [loaded] false, and at most once by it.  A stage operation on a driver with [loaded] true sends
    no save command and keeps [backup_file]; [discard_config] and
    [rollback] then load the configuration from that same file. *)
Theorem backup_saved_once (self : PANOSDriver) (tr : trace) :
  (forall o,
      let '(_, _, tr') := perform env o self tr in
      exists new,
        extends tr new tr'
        /\ length (List.filter is_save_command new) <= 1
        /\ (existsb is_save_command new = true ->
            loaded self = false /\ is_stage o = true))
  /\ (loaded self = true ->
      forall o,
        is_stage o = true ->
        let '(_, self', tr') := perform env o self tr in
        backup_file self' = backup_file self
        /\ exists new,
             extends tr new tr' /\ existsb is_save_command new = false)
  /\ (forall file,
      loaded self = true ->
      backup_file self = Some file ->
      device self = true ->
      let '(_, _, tr') := discard_config env self tr in
      tr' = Event (XapiOp (load_cmd file)) :: tr)
  /\ (forall file,
      changed self = true ->
      backup_file self = Some file ->
      device self = true ->
      let '(_, _, tr') := rollback env self tr in
      exists new, extends (Event (XapiOp (load_cmd file)) :: tr) new tr').
Proof.
  destruct self as [h u p l c dv ssh mc lo sl slc ak bf]. simpl.
  repeat apply conj.
  - intros o. destruct o; run_method; simpl;
      (eexists; split; [solve_extends |]); simpl;
      (split; [lia |]); intros; try discriminate; auto.
  - intros -> o Ho. destruct o; try discriminate; run_method; simpl;
      (split; [reflexivity | eexists; split; [solve_extends | reflexivity]]).
  - intros file -> -> ->. run_method; reflexivity.
  - intros file -> -> ->. run_method; simpl; eexists; solve_extends.
Qed.

End Staging.

(** * Replace staging *)

Section Replace.

Variable env : environment.

Lemma save_backup_keeps (self self1 : PANOSDriver) (tr tr1 : trace) (r : outcome bool) :
  _save_backup env self tr = (r, self1, tr1) ->
  loaded self1 = loaded self /\ device self1 = device self /\ api_key self1 = api_key self
  /\ hostname self1 = hostname self.
Proof.
  destruct self as [h u p l c dv ssh mc lo sl slc ak bf].
  run_method; intros [= <- <- <-]; simpl; auto.
Qed.

Lemma import_file_keeps (filename : string) (self self1 : PANOSDriver)
    (tr tr1 : trace) (r : outcome (option string)) :
  _import_file env filename self tr = (r, self1, tr1) -> self1 = self.
Proof.
  destruct self as [h u p l c dv ssh mc lo sl slc ak bf].
  run_method; intros [= <- <- <-]; reflexivity.
Qed.

(** The failure paths of [load_replace_candidate] that end in a
    [ReplaceConfigException]: inline content, no file name, an upload that
    the device answers with status [error]. *)
Lemma load_replace_candidate_raises_replace
    (filename : option string) (config : option config_arg)
    (self : PANOSDriver) (tr : trace) :
  (config_truthy config = true ->
   load_replace_candidate env filename config self tr
     = (Exn (ReplaceConfigException "This method requires a config file."),
        self, tr))
  /\ (config_truthy config = false ->
      Py.truthy_opt filename = false ->
      load_replace_candidate env filename config self tr
        = (Exn (ReplaceConfigException "This method requires a config file."),
           self, tr))
  /\ (config_truthy config = false ->
      Py.truthy_opt filename = true ->
      loaded self = true ->
      forall self1 tr1,
        _import_file env (default "" filename) self tr = (Ok None, self1, tr1) ->
        load_replace_candidate env filename config self tr
          = (Exn (ReplaceConfigException
                    "Error while trying to move the config file to the device."),
             self, tr1)).
Proof.
  unfold load_replace_candidate. repeat apply conj.
  - intros ->. reflexivity.
  - intros -> ->. reflexivity.
  - intros -> -> Hl self1 tr1 Himport.
    pose proof (import_file_keeps _ _ _ _ _ _ Himport) as ->.
    unfold_monad. rewrite Hl. simpl. rewrite Himport. reflexivity.
Qed.

(** C8, the rejected load: when the backup and the upload went through and
    the device answers the load command with a status other than
    [success], what lines 298-300 raise is [AttributeError], not the
    [ReplaceConfigException] they build; [loaded] is as before. *)
Theorem load_replace_candidate_rejected_load
    (filename : option string) (config : option config_arg)
    (self self0 self1 : PANOSDriver) (tr tr0 tr1 : trace)
    (path : string) (status : option string) :
  config_truthy config = false ->
  Py.truthy_opt filename = true ->
  (loaded self = true /\ self0 = self /\ tr0 = tr
   \/ loaded self = false /\ _save_backup env self tr = (Ok true, self0, tr0)) ->
  _import_file env (default "" filename) self0 tr0 = (Ok (Some path), self1, tr1) ->
  device self1 = true ->
  respond env _ tr1 (XapiOp (load_cmd path)) = inl status ->
  is_success status = false ->
  load_replace_candidate env filename config self tr
    = (Exn (AttributeError
              "'ReplaceConfigException' object has no attribute 'format'"),
       self1, Event (XapiOp (load_cmd path)) :: tr1)
  /\ loaded self1 = loaded self.
Proof.
  intros Hc Hf Hstart Himport Hdev Hload Hst.
  pose proof (import_file_keeps _ _ _ _ _ _ Himport) as ->.
  unfold load_replace_candidate. rewrite Hc, Hf.
  destruct Hstart as [(Hl & -> & ->) | (Hl & Hsave)].
  - unfold bind at 1. unfold get at 1. rewrite Hl. cbn [negb].
    unfold bind at 1. unfold ret at 1.
    unfold bind at 1. rewrite Himport.
    unfold device_call. unfold_monad. rewrite Hdev, Hload, Hst. auto.
  - destruct (save_backup_keeps _ _ _ _ _ Hsave) as (Hl0 & _).
    unfold bind at 1. unfold get at 1. rewrite Hl. cbn [negb].
    unfold bind at 1. unfold bind at 1. rewrite Hsave. cbn [negb].
    unfold ret at 1.
    unfold bind at 1. rewrite Himport.
    unfold device_call. unfold_monad. rewrite Hdev, Hload, Hst.
    split; [reflexivity | congruence].
Qed.

End Replace.

(** * Rollback *)

Section RollbackCommit.

Variable env : environment.

(** C9: [rollback] on a driver with [changed] false does nothing: same
    state, no call.  With [changed] true, once the backup was loaded back
    into the candidate and the shell channel is open, a commit that raises
    makes [rollback] return normally with [loaded], [changed] and
    [merge_config] as they were. *)
Theorem rollback_swallows_commit_failure (self : PANOSDriver) (tr : trace) :
  (changed self = false -> rollback env self tr = (Ok tt, self, tr))
  /\ (changed self = true ->
      forall file status self1 tr1 e,
        backup_file self = Some file ->
        device self = true ->
        respond env _ tr (XapiOp (load_cmd file)) = inl status ->
        ensure_ssh env self
          (Event (Sleep 5) :: Event (XapiOp (load_cmd file)) :: tr)
          = (Ok tt, self1, tr1) ->
        respond env _ tr1 (SshCommit None) = inr e ->
        let '(r, self', tr') := rollback env self tr in
        r = Ok tt
        /\ loaded self' = loaded self
        /\ changed self' = changed self
        /\ merge_config self' = merge_config self
        /\ tr' = Event (SshCommit None) :: tr1).
Proof.
  destruct self as [h u p l c dv ssh mc lo sl slc ak bf]. simpl. split.
  - intros ->. reflexivity.
  - intros -> file status self1 tr1 e -> -> Hload.
    unfold rollback, read_backup_file, device_call, ensure_ssh, _open_ssh.
    unfold_monad. simpl. rewrite Hload.
    destruct ssh; simpl.
    + intros [= <- <-] ->. simpl. auto.
    + match goal with
      | |- context [respond env ?R ?t ?c] =>
          destruct (respond env R t c) as [[] | e'] eqn:Hc
      end; simpl; [| destruct e'; discriminate].
      intros [= <- <-] ->. simpl. auto.
Qed.

End RollbackCommit.

(** * Reading the configuration *)

Section GetConfig.

Variable env : environment.

(** C10: whatever [get_config] returns is a dict with exactly the keys
    [running], [candidate] and [startup], and its [startup] entry is the
    empty string.  For [retrieve = "startup"] (with [full] and [sanitized]
    false) it returns three empty strings without any call; and with
    [full] and [sanitized] false it does return whenever the device
    answers. *)
Theorem get_config_shape (retrieve : string) (full sanitized : bool)
    (self : PANOSDriver) (tr : trace) :
  (forall configs self' tr',
      get_config env retrieve full sanitized self tr = (Ok configs, self', tr') ->
      dom configs = ({[ "running"; "candidate"; "startup" ]} : gset string)
      /\ configs !! "startup" = Some "")
  /\ get_config env "startup" false false self tr
     = (Ok (<[ "startup" := "" ]> (<[ "candidate" := "" ]>
              (<[ "running" := "" ]> (∅ : gmap string string)))),
        self, tr)
  /\ (full = false ->
      sanitized = false ->
      device self = true ->
      (forall R tr0 (c : call R), exists v, respond env R tr0 c = inl v) ->
      exists configs self' tr',
        get_config env retrieve full sanitized self tr = (Ok configs, self', tr')).
Proof.
  destruct self as [h u p l c dv ssh mc lo sl slc ak bf]. simpl.
  repeat apply conj.
  - intros configs self' tr'.
    run_method; intros [= <- <- <-]; simpl;
      (split; [rewrite !dom_insert_L, dom_empty_L; set_solver
              | apply lookup_insert_eq]).
  - reflexivity.
  - intros -> -> -> Hfine.
    run_method; eauto;
      match goal with
      | H : respond env ?R ?t ?c = inr _ |- _ =>
          destruct (Hfine R t c) as [? ?]; congruence
      end.
Qed.

End GetConfig.

(** * Concrete runs *)

(** C1, a transition outside the table: with session locking enabled, the
    device commits the staged merge and then refuses the config lock.
    [commit_config] raises [LockError], and yet [loaded] went from true to
    false and [changed] from false to true. *)
Lemma flags_change_when_relock_raises :
  forallb follows_flag_table
    (session relock_refused [Open; merge_a_b; CommitConfig "m"] locking_driver [])
  = false
  /\ map (fun t => (result t, loaded (after t), changed (after t)))
       (session relock_refused [Open; merge_a_b; CommitConfig "m"] locking_driver [])
     = [(Ok tt, false, false);
        (Ok tt, true, false);
        (Exn (LockError "Failed to aquire config-lock: config lock held by admin2"),
         false, true)].
Proof. split; reflexivity. Qed.

Lemma commit_config_outcome_witness :
  loaded (fst (staged commit_times_out plain_driver)) = true
  /\ ensure_ssh commit_times_out
       (fst (staged commit_times_out plain_driver))
       (snd (staged commit_times_out plain_driver))
     = (Ok tt,
        fst (staged commit_times_out plain_driver),
        snd (staged commit_times_out plain_driver))
  /\ (let '(r, self', _) :=
        commit_config commit_times_out "m"
          (fst (staged commit_times_out plain_driver))
          (snd (staged commit_times_out plain_driver)) in
      r = Exn (MergeConfigException "Error while commiting config")
      /\ loaded self' = true
      /\ changed self' = false).
Proof.
  split; [reflexivity | split; [reflexivity |]].
  exact (proj1
    (commit_config_outcome commit_times_out "m"
       (fst (staged commit_times_out plain_driver))
       (fst (staged commit_times_out plain_driver))
       (snd (staged commit_times_out plain_driver))
       (snd (staged commit_times_out plain_driver))
       eq_refl eq_refl)
    (OtherError "ReadTimeout" "commit timed out") eq_refl).
Defined.

Lemma backup_failure_blocks_staging_witness :
  loaded (fst (opened backup_rejected plain_driver)) = false
  /\ load_replace_candidate backup_rejected (Some "/tmp/new.xml") None
       (fst (opened backup_rejected plain_driver))
       (snd (opened backup_rejected plain_driver))
     = (Exn (ReplaceConfigException "Error while storing backup config"),
        set_backup_file (Some "config_2024-01-15.xml")
          (fst (opened backup_rejected plain_driver)),
        Event (XapiOp "<save><config><to>config_2024-01-15.xml</to></config></save>")
          :: snd (opened backup_rejected plain_driver))
  /\ load_merge_candidate backup_rejected None (Some (ConfigStr "set a b"))
       (fst (opened backup_rejected plain_driver))
       (snd (opened backup_rejected plain_driver))
     = (Exn (MergeConfigException "Error while storing backup config."),
        set_backup_file (Some "config_2024-01-15.xml")
          (fst (opened backup_rejected plain_driver)),
        Event (XapiOp "<save><config><to>config_2024-01-15.xml</to></config></save>")
          :: snd (opened backup_rejected plain_driver)).
Proof.
  split; [reflexivity |].
  destruct (backup_failure_blocks_staging backup_rejected
              (fst (opened backup_rejected plain_driver))
              (set_backup_file (Some "config_2024-01-15.xml")
                 (fst (opened backup_rejected plain_driver)))
              (snd (opened backup_rejected plain_driver))
              (Event (XapiOp "<save><config><to>config_2024-01-15.xml</to></config></save>")
                 :: snd (opened backup_rejected plain_driver))
              eq_refl) as (Hreplace & Hmerge & _).
  split; [apply Hreplace | apply Hmerge]; reflexivity.
Defined.

Lemma commit_config_relocks_witness :
  _session_config_lock (fst (staged healthy locking_driver)) = true
  /\ commit_config healthy "m"
       (fst (staged healthy locking_driver))
       (snd (staged healthy locking_driver))
     = (Ok tt,
        set_lock_object (Some (set_locked true fresh_lock))
          (set_changed true (set_loaded false (fst (staged healthy locking_driver)))),
        Event (XapiOp (TAKE_LOCK_API_CMD "commit" "NAPALM-managed-lock"))
          :: Event (XapiOp (TAKE_LOCK_API_CMD "config" "NAPALM-managed-lock"))
          :: Event (Sleep 3) :: Event (SshCommit (Some "m"))
          :: snd (staged healthy locking_driver)).
Proof.
  split; [reflexivity |].
  destruct (commit_config_relocks healthy "m"
              (fst (staged healthy locking_driver))
              (snd (staged healthy locking_driver))) as (Hrelock & _).
  exact (proj1 (Hrelock eq_refl
                  (fst (staged healthy locking_driver))
                  (snd (staged healthy locking_driver))
                  tt (set_locked true fresh_lock)
                  eq_refl eq_refl eq_refl eq_refl)).
Defined.

Lemma backup_saved_once_witness :
  loaded (fst (staged healthy plain_driver)) = true
  /\ (let '(_, self', tr') :=
        perform healthy merge_a_b
          (fst (staged healthy plain_driver)) (snd (staged healthy plain_driver)) in
      backup_file self' = backup_file (fst (staged healthy plain_driver))
      /\ exists new,
           extends (snd (staged healthy plain_driver)) new tr'
           /\ existsb is_save_command new = false).
Proof.
  split; [reflexivity |].
  exact (proj1 (proj2 (backup_saved_once healthy
                         (fst (staged healthy plain_driver))
                         (snd (staged healthy plain_driver))))
           eq_refl merge_a_b eq_refl).
Defined.

Lemma lock_order_and_failure_witness :
  locked fresh_lock = false
  /\ (let '(r, self', tr') := lock commit_lock_refused fresh_lock [] in
      r = Exn (LockError "Failed to aquire commit-lock: commit lock held by admin2")
      /\ locked self' = false
      /\ tr' = [Event (XapiOp (TAKE_LOCK_API_CMD "commit" "NAPALM-managed-lock"));
                Event (XapiOp (TAKE_LOCK_API_CMD "config" "NAPALM-managed-lock"))]).
Proof.
  split; [reflexivity |].
  destruct (lock_order_and_failure commit_lock_refused fresh_lock [] eq_refl)
    as (_ & Hcommit & _).
  exact (Hcommit (Some "success") "commit lock held by admin2" eq_refl eq_refl).
Defined.

Lemma lock_unlock_idempotent_witness :
  locked fresh_lock = false
  /\ lock healthy fresh_lock []
     = (Ok tt, set_locked true fresh_lock,
        [Event (XapiOp (TAKE_LOCK_API_CMD "commit" "NAPALM-managed-lock"));
         Event (XapiOp (TAKE_LOCK_API_CMD "config" "NAPALM-managed-lock"))])
  /\ (lock healthy ;; lock healthy) fresh_lock []
     = (Ok tt, set_locked true fresh_lock,
        [Event (XapiOp (TAKE_LOCK_API_CMD "commit" "NAPALM-managed-lock"));
         Event (XapiOp (TAKE_LOCK_API_CMD "config" "NAPALM-managed-lock"))])
  /\ unlock healthy fresh_lock [] = (Ok tt, fresh_lock, []).
Proof.
  split; [reflexivity | split; [reflexivity |]].
  destruct (lock_unlock_idempotent healthy fresh_lock []) as (_ & Htwice & Hunlock).
  split; [exact (proj1 (Htwice eq_refl _ _ eq_refl)) | exact (Hunlock eq_refl)].
Defined.

Lemma load_replace_candidate_rejected_load_witness :
  loaded (fst (opened load_rejected plain_driver)) = false
  /\ load_replace_candidate load_rejected (Some "/tmp/new.xml") None
       (fst (opened load_rejected plain_driver))
       (snd (opened load_rejected plain_driver))
     = (Exn (AttributeError
               "'ReplaceConfigException' object has no attribute 'format'"),
        set_backup_file (Some "config_2024-01-15.xml")
          (fst (opened load_rejected plain_driver)),
        Event (XapiOp (load_cmd "new.xml"))
          :: Event (ImportPost "fw1" "k3y" "/tmp/new.xml")
          :: Event XapiKeygen
          :: Event (XapiOp "<save><config><to>config_2024-01-15.xml</to></config></save>")
          :: snd (opened load_rejected plain_driver)).
Proof.
  split; [reflexivity |].
  refine (proj1 (load_replace_candidate_rejected_load load_rejected
                   (Some "/tmp/new.xml") None
                   (fst (opened load_rejected plain_driver))
                   (set_backup_file (Some "config_2024-01-15.xml")
                      (fst (opened load_rejected plain_driver)))
                   (set_backup_file (Some "config_2024-01-15.xml")
                      (fst (opened load_rejected plain_driver)))
                   (snd (opened load_rejected plain_driver))
                   (Event (XapiOp "<save><config><to>config_2024-01-15.xml</to></config></save>")
                      :: snd (opened load_rejected plain_driver))
                   (Event (ImportPost "fw1" "k3y" "/tmp/new.xml")
                      :: Event XapiKeygen
                      :: Event (XapiOp "<save><config><to>config_2024-01-15.xml</to></config></save>")
                      :: snd (opened load_rejected plain_driver))
                   "new.xml" (Some "error")
                   eq_refl eq_refl (or_intror (conj eq_refl eq_refl))
                   eq_refl eq_refl eq_refl eq_refl)).
Defined.

Lemma rollback_swallows_commit_failure_witness :
  changed (fst (committed rollback_commit_times_out plain_driver)) = true
  /\ (let '(r, self', _) :=
        rollback rollback_commit_times_out
          (fst (committed rollback_commit_times_out plain_driver))
          (snd (committed rollback_commit_times_out plain_driver)) in
      r = Ok tt
      /\ loaded self' = false
      /\ changed self' = true
      /\ merge_config self' = true).
Proof.
  split; [reflexivity |].
  pose proof (proj2 (rollback_swallows_commit_failure rollback_commit_times_out
                (fst (committed rollback_commit_times_out plain_driver))
                (snd (committed rollback_commit_times_out plain_driver)))
              eq_refl "config_2024-01-15.xml" (Some "success")
              (fst (committed rollback_commit_times_out plain_driver))
              (Event (Sleep 5)
                 :: Event (XapiOp (load_cmd "config_2024-01-15.xml"))
                 :: snd (committed rollback_commit_times_out plain_driver))
              (OtherError "ReadTimeout" "commit timed out")
              eq_refl eq_refl eq_refl eq_refl eq_refl) as H.
  destruct (rollback rollback_commit_times_out _ _) as [[r self'] tr'].
  destruct H as (Hr & Hl & Hc & Hm & _).
  repeat split; assumption.
Defined.

Lemma get_config_shape_witness :
  device (fst (opened healthy plain_driver)) = true
  /\ exists configs self' tr',
       get_config healthy "all" false false
         (fst (opened healthy plain_driver)) (snd (opened healthy plain_driver))
       = (Ok configs, self', tr')
       /\ dom configs = ({[ "running"; "candidate"; "startup" ]} : gset string)
       /\ configs !! "startup" = Some "".
Proof.
  split; [reflexivity |].
  destruct (get_config_shape healthy "all" false false
              (fst (opened healthy plain_driver))
              (snd (opened healthy plain_driver))) as (Hshape & _ & Hreturns).
  destruct (Hreturns eq_refl eq_refl eq_refl
              (fun R tr0 c => ex_intro _ (fine c) eq_refl))
    as (configs & self' & tr' & Hrun).
  exists configs, self', tr'.
  split; [exact Hrun | exact (Hshape _ _ _ Hrun)].
Defined.

(** * Further properties of the lock manager *)

Section Unlock.

Variable env : environment.

(** X1: [unlock()] on a held lock releases the config lock first and the
    commit lock second.  When the device refuses a release
    ([PanXapiError]), the call raises an [UnlockError] that names the
    lock, the [locked] flag stays set, and after a refused config release
    the commit release is not sent.  When both releases return, the flag
    is cleared. *)
Theorem unlock_order_and_failure (self : PANOSLock) (tr : trace) :
  locked self = true ->
  let release_config := XapiOp (RELEASE_LOCK_API_CMD "config") in
  let release_commit := XapiOp (RELEASE_LOCK_API_CMD "commit") in
  (forall msg,
      respond env _ tr release_config = inr (PanXapiError msg) ->
      unlock env self tr
        = (Exn (UnlockError ("Failed to release config-lock: " +:+ msg)),
           self, Event release_config :: tr))
  /\ (forall status msg,
      respond env _ tr release_config = inl status ->
      respond env _ (Event release_config :: tr) release_commit
        = inr (PanXapiError msg) ->
      unlock env self tr
        = (Exn (UnlockError ("Failed to release commit-lock: " +:+ msg)),
           self, Event release_commit :: Event release_config :: tr))
  /\ (forall status status',
      respond env _ tr release_config = inl status ->
      respond env _ (Event release_config :: tr) release_commit = inl status' ->
      unlock env self tr
        = (Ok tt, set_locked false self,
           Event release_commit :: Event release_config :: tr)).
Proof.
  intros Hl release_config release_commit. subst release_config release_commit.
  unfold unlock, for_each, LOCK_TYPES. unfold_monad. rewrite Hl. cbn [negb].
  repeat split; intros *.
  - intros ->. reflexivity.
  - intros -> ->. reflexivity.
  - intros -> ->. reflexivity.
Qed.

End Unlock.

(** * Further properties of the session operations *)

Section SessionOperations.

Variable env : environment.

Lemma unlock_raises_keeps (l l' : PANOSLock) (tr tr' : trace) (e : exn) :
  unlock env l tr = (Exn e, l', tr') -> l' = l.
Proof.
  destruct l as [lk cm]. revert l'.
  unfold unlock, for_each, LOCK_TYPES. unfold_monad.
  repeat (simpl; split_match); simpl; intros l' [= <- <-]; reflexivity.
Qed.

(** X2: [discard_config] with nothing staged returns at once: no call, no
    change, no exception.  With a candidate staged it sends the load of
    the backup file; on status [success] it clears [loaded] and
    [merge_config], on any other status it raises
    [ReplaceConfigException].  It never touches [changed] or
    [backup_file], and whenever it raises the driver is as before. *)
Theorem discard_config_outcome (self : PANOSDriver) (tr : trace) :
  (loaded self = false -> discard_config env self tr = (Ok tt, self, tr))
  /\ (loaded self = true ->
      forall file status,
        backup_file self = Some file ->
        device self = true ->
        respond env _ tr (XapiOp (load_cmd file)) = inl status ->
        discard_config env self tr
          = if is_success status
            then (Ok tt, set_merge_config false (set_loaded false self),
                  Event (XapiOp (load_cmd file)) :: tr)
            else (Exn (ReplaceConfigException "Error while loading backup config."),
                  self, Event (XapiOp (load_cmd file)) :: tr))
  /\ (forall r self' tr',
      discard_config env self tr = (r, self', tr') ->
      changed self' = changed self
      /\ backup_file self' = backup_file self
      /\ (is_ok r = false -> self' = self)).
Proof.
  destruct self as [h u p l c dv ssh mc lo sl slc ak bf]. simpl.
  repeat apply conj.
  - intros ->. reflexivity.
  - intros -> file status -> -> Hload.
    unfold_methods; unfold_monad; simpl. rewrite Hload.
    destruct (is_success status); reflexivity.
  - intros r self' tr'.
    run_method; intros [= <- <- <-]; simpl; repeat split;
      intros; try discriminate; reflexivity.
Qed.

(** X3: [close] never touches the transaction flags or the backup file.
    When it returns, the pan.xapi session, the shell channel and (with
    session locking) the lock object are gone.  When releasing a lock
    raises, [close] raises the same exception and leaves the driver
    exactly as it was: nothing is torn down.  When the disconnect raises,
    the pan.xapi session is already dropped and [ssh_connection] is still
    true. *)
Theorem close_outcome (self : PANOSDriver) (tr : trace) :
  (forall r self' tr',
      close env self tr = (r, self', tr') ->
      loaded self' = loaded self
      /\ changed self' = changed self
      /\ merge_config self' = merge_config self
      /\ backup_file self' = backup_file self)
  /\ (forall self' tr',
      close env self tr = (Ok tt, self', tr') ->
      device self' = false
      /\ ssh_connection self' = false
      /\ (_session_config_lock self = true -> _lock_object self' = None))
  /\ (forall l l' e tr',
      _session_config_lock self = true ->
      _lock_object self = Some l ->
      unlock env l tr = (Exn e, l', tr') ->
      close env self tr = (Exn e, self, tr'))
  /\ (forall e,
      _session_config_lock self = false \/ _lock_object self = None ->
      ssh_connection self = true ->
      respond env _ tr SshDisconnect = inr e ->
      close env self tr = (Exn e, set_device false self, Event SshDisconnect :: tr)).
Proof.
  destruct self as [h u p l c dv ssh mc lo sl slc ak bf]. simpl.
  repeat apply conj.
  - intros r self' tr'.
    run_method; intros [= <- <- <-]; simpl; repeat split.
  - intros self' tr'.
    run_method; intros [= <- <-]; simpl; repeat split;
      intros; try discriminate; reflexivity.
  - intros lk lk' e tr' -> -> Hunlock.
    pose proof (unlock_raises_keeps _ _ _ _ _ Hunlock) as ->.
    unfold close, on_lock_object. unfold_monad. simpl.
    rewrite Hunlock. reflexivity.
  - intros e Hnolock -> Hdisc.
    unfold close, on_lock_object. unfold_monad.
    destruct Hnolock as [-> | ->]; simpl; [| destruct sl];
      simpl; rewrite Hdisc; reflexivity.
Qed.

(** X4: [open].  When the pan.xapi session cannot be built, [open] raises
    what the constructor raised and the driver is as before.  Without
    session locking it only sets [device].  With session locking and a
    lock object that is already held (a second [open]) it sends no lock
    command; with no lock object yet it builds one with the session's
    comment and runs [lock()] on it, so that a [LockError] from there
    leaves [device] set and the new lock object not held. *)
Theorem open_outcome (self : PANOSDriver) (tr : trace) :
  let session_call :=
    if Py.truthy (api_key self)
    then PanXapiNew (hostname self) (Some (api_key self)) None
    else PanXapiNew (hostname self) None (Some (username self, password self)) in
  (forall e,
      respond env _ tr session_call = inr e ->
      open env self tr = (Exn e, self, Event session_call :: tr))
  /\ (forall v,
      respond env _ tr session_call = inl v ->
      _session_config_lock self = false ->
      open env self tr = (Ok tt, set_device true self, Event session_call :: tr))
  /\ (forall v l,
      respond env _ tr session_call = inl v ->
      _session_config_lock self = true ->
      _lock_object self = Some l ->
      locked l = true ->
      open env self tr = (Ok tt, set_device true self, Event session_call :: tr))
  /\ (forall v,
      respond env _ tr session_call = inl v ->
      _session_config_lock self = true ->
      _lock_object self = None ->
      let '(r, l', tr') :=
        lock env {| locked := false;
                    _lock_comment := _session_config_lock_comment self |}
          (Event session_call :: tr) in
      open env self tr
        = (r, set_lock_object (Some l') (set_device true self), tr')
      /\ (is_ok r = false -> locked l' = false)).
Proof.
  destruct self as [h u p l c dv ssh mc lo sl slc ak bf]. simpl.
  repeat apply conj.
  - intros e He. unfold open. unfold_monad. simpl. rewrite He.
    destruct e; reflexivity.
  - intros v Hv ->. unfold open. unfold_monad. simpl. rewrite Hv. reflexivity.
  - intros v [lk cm] Hv -> -> Hl. simpl in Hl. subst lk.
    unfold open, on_lock_object, lock. unfold_monad. simpl. rewrite Hv.
    reflexivity.
  - intros v Hv -> ->.
    unfold open, on_lock_object. unfold_monad. simpl. rewrite Hv. simpl.
    destruct (lock env _ _) as [[r l'] tr'] eqn:Hlock.
    split; [reflexivity |].
    revert Hlock. unfold lock, for_each, LOCK_TYPES. unfold_monad. simpl.
    repeat (simpl; split_match); simpl; intros [= <- <- <-];
      intros; try discriminate; reflexivity.
Qed.

End SessionOperations.

(** * Further properties of staging *)

Section StagingArguments.

Variable env : environment.

(** X5: the arguments of [load_merge_candidate].  With neither a file name
    nor inline content it raises [MergeConfigException] without a call.
    With a file name the inline content is ignored.  A file that cannot be
    read ([IOError]) gives a [MergeConfigException] naming the file, with
    no backup taken and nothing sent to the device.  When the call
    returns, [loaded] and [merge_config] are true and the last call is the
    one that sent the statements; when it raises, both flags are as
    before. *)
Theorem load_merge_candidate_arguments
    (filename : option string) (config : option config_arg)
    (self : PANOSDriver) (tr : trace) :
  (Py.truthy_opt filename = false ->
   config_truthy config = false ->
   load_merge_candidate env filename config self tr
     = (Exn (MergeConfigException
               "You must provide either a file or a set-format string"),
        self, tr))
  /\ (Py.truthy_opt filename = true ->
      forall config',
        load_merge_candidate env filename config self tr
        = load_merge_candidate env filename config' self tr)
  /\ (forall name msg,
      filename = Some name ->
      Py.truthy name = true ->
      respond env _ tr (ReadFile name) = inr (IOError msg) ->
      load_merge_candidate env filename config self tr
        = (Exn (MergeConfigException
                  ("Error while opening " +:+ name
                     +:+ ". Make sure filename is correct.")),
           self, Event (ReadFile name) :: tr))
  /\ (forall r self' tr',
      load_merge_candidate env filename config self tr = (r, self', tr') ->
      match r with
      | Ok _ =>
          loaded self' = true
          /\ merge_config self' = true
          /\ exists lines tr0, tr' = Event (SshSendConfigSet lines) :: tr0
      | Exn _ =>
          loaded self' = loaded self /\ merge_config self' = merge_config self
      end).
Proof.
  repeat apply conj.
  - intros Hf Hc. unfold load_merge_candidate. rewrite Hf.
    destruct config as [c |]; [rewrite Hc |]; reflexivity.
  - intros Hf config'. unfold load_merge_candidate. rewrite Hf. reflexivity.
  - intros name msg -> Hname Hread.
    unfold load_merge_candidate, _get_file_content. unfold_monad.
    simpl. rewrite Hname, Hread. reflexivity.
  - intros r self' tr'.
    destruct self as [h u p l c dv ssh mc lo sl slc ak bf].
    destruct config as [[s | lines] |];
      run_method; intros [= <- <- <-]; simpl; eauto.
Qed.

Lemma load_replace_candidate_keeps (filename : option string)
    (config : option config_arg) (self self' : PANOSDriver)
    (tr tr' : trace) (r : outcome unit) :
  load_replace_candidate env filename config self tr = (r, self', tr') ->
  merge_config self' = merge_config self
  /\ changed self' = changed self
  /\ ssh_connection self' = ssh_connection self
  /\ (is_ok r = true -> loaded self' = true).
Proof.
  destruct self as [h u p l c dv ssh mc lo sl slc ak bf].
  run_method; intros [= <- <- <-]; simpl; repeat split;
    intros; try discriminate; reflexivity.
Qed.

(** X6: [load_replace_candidate] never writes [merge_config].  So when a
    replace is staged on a driver whose [merge_config] is still true from
    an earlier merge, a commit that then fails raises
    [MergeConfigException], although the candidate that was staged last
    is a replace. *)
Theorem replace_keeps_merge_config
    (filename : option string) (config : option config_arg) (message : string)
    (self self1 self2 : PANOSDriver) (tr tr1 tr2 : trace) (r : outcome unit) :
  load_replace_candidate env filename config self tr = (r, self1, tr1) ->
  merge_config self1 = merge_config self
  /\ (r = Ok tt ->
      merge_config self = true ->
      ensure_ssh env self1 tr1 = (Ok tt, self2, tr2) ->
      forall e,
        respond env _ tr2 (SshCommit (Some message)) = inr e ->
        commit_config env message self1 tr1
          = (Exn (MergeConfigException "Error while commiting config"),
             self2, Event (SshCommit (Some message)) :: tr2)).
Proof.
  intros Hreplace.
  destruct (load_replace_candidate_keeps _ _ _ _ _ _ _ Hreplace)
    as (Hm & _ & _ & Hl).
  split; [exact Hm |].
  intros -> Hmerge Hssh e He.
  specialize (Hl eq_refl). rewrite Hmerge in Hm.
  clear Hreplace Hmerge.
  destruct self1 as [h u p l c dv ssh mc lo sl slc ak bf].
  simpl in Hl, Hm. subst l mc. revert Hssh.
  unfold commit_config, ensure_ssh, _open_ssh. unfold_monad. simpl.
  destruct ssh; simpl.
  - intros [= <- <-]. rewrite He. reflexivity.
  - destruct (respond env _ tr1 (ConnectHandler h u p)) as [[] | e'] eqn:Hc;
      simpl; [| destruct e'; discriminate].
    intros [= <- <-]. rewrite He. reflexivity.
Qed.

End StagingArguments.

(** * Invariants of a session *)

Section SessionInvariants.

Variable env : environment.

(** X7: the shell channel is opened lazily and stays open.  A public
    operation calls [ConnectHandler] at most once, only when
    [ssh_connection] is false and only if it is one of the operations
    that work over the shell; [ssh_connection] turns true only with such
    a call and turns false only in [close]. *)
Theorem shell_channel_lazy (o : operation) (self : PANOSDriver) (tr : trace) :
  let '(_, self', tr') := perform env o self tr in
  exists new,
    extends tr new tr'
    /\ length (List.filter is_connect new) <= 1
    /\ (existsb is_connect new = true ->
        ssh_connection self = false /\ uses_shell o = true)
    /\ (ssh_connection self = false ->
        ssh_connection self' = true ->
        existsb is_connect new = true)
    /\ (ssh_connection self = true ->
        ssh_connection self' = false ->
        is_close o = true).
Proof.
  destruct self as [h u p l c dv ssh mc lo sl slc ak bf].
  destruct o; run_method; simpl;
    (eexists; split; [solve_extends |]); simpl;
    repeat split; intros; try congruence; try lia; auto.
Qed.

Lemma step_keeps_safety_net (o : operation) (self self' : PANOSDriver)
    (tr tr' : trace) (r : outcome unit) :
  has_safety_net self ->
  perform env o self tr = (r, self', tr') ->
  has_safety_net self'.
Proof.
  unfold has_safety_net.
  destruct self as [h u p l c dv ssh mc lo sl slc ak bf]. simpl.
  intros Hnet. revert Hnet.
  destruct o; run_method; intros Hnet [= <- <- <-]; simpl;
    try (intros _; discriminate);
    try (intros [? | ?]; discriminate);
    try exact Hnet;
    try (intros _; apply Hnet; auto).
Qed.

(** X8: in every session on a new driver, at each point where [loaded] or
    [changed] is true the attribute [backup_file] exists: [discard_config]
    and [rollback] always have a file to load from. *)
Theorem sessions_keep_safety_net
    (hostname username password : string) (optional : option optional_args)
    (ops : list operation) :
  Forall (fun t => has_safety_net (before t) /\ has_safety_net (after t))
    (session env ops (init hostname username password optional) []).
Proof.
  assert (Hinit : has_safety_net (init hostname username password optional)).
  { unfold has_safety_net. simpl. intros [? | ?]; discriminate. }
  revert Hinit.
  generalize (init hostname username password optional) ([] : trace).
  induction ops as [| o rest IH]; intros self tr Hnet; [constructor |].
  cbn [session].
  destruct (perform env o self tr) as [[r self'] tr'] eqn:Hstep.
  pose proof (step_keeps_safety_net _ _ _ _ _ _ Hnet Hstep) as Hnet'.
  constructor; [split; assumption | apply IH; exact Hnet'].
Qed.

Lemma step_without_locking (o : operation) (self self' : PANOSDriver)
    (tr tr' : trace) (r : outcome unit) :
  _session_config_lock self = false ->
  _lock_object self = None ->
  perform env o self tr = (r, self', tr') ->
  _session_config_lock self' = false
  /\ _lock_object self' = None
  /\ exists new,
       extends tr new tr'
       /\ forallb (fun e => negb (is_lock_command e)) new = true.
Proof.
  destruct self as [h u p l c dv ssh mc lo sl slc ak bf]. simpl.
  intros -> ->.
  destruct o; run_method; intros [= <- <- <-]; simpl;
    (split; [reflexivity | split; [reflexivity |]]);
    (eexists; split; [solve_extends | reflexivity]).
Qed.

(** X9: on a driver built without session locking, no sequence of public
    operations ever builds a lock object or sends a lock command. *)
Theorem sessions_without_locking
    (hostname username password : string) (optional : option optional_args)
    (ops : list operation) :
  _session_config_lock (init hostname username password optional) = false ->
  let '(self', tr') := run env ops (init hostname username password optional) [] in
  _lock_object self' = None
  /\ forallb (fun e => negb (is_lock_command e)) tr' = true.
Proof.
  intros Hoff.
  assert (Hnone : _lock_object (init hostname username password optional) = None)
    by reflexivity.
  assert (Hquiet : forallb (fun e => negb (is_lock_command e)) ([] : trace) = true)
    by reflexivity.
  revert Hoff Hnone Hquiet.
  generalize (init hostname username password optional) ([] : trace).
  induction ops as [| o rest IH]; intros self tr Hoff Hnone Hquiet.
  - simpl. auto.
  - cbn [run].
    destruct (perform env o self tr) as [[r self1] tr1] eqn:Hstep.
    destruct (step_without_locking _ _ _ _ _ _ Hoff Hnone Hstep)
      as (Hoff1 & Hnone1 & new & -> & Hnew).
    apply IH; [assumption | assumption |].
    rewrite forallb_app, Hnew, Hquiet. reflexivity.
Qed.

End SessionInvariants.

(** * Commit, rollback and discard in sequence *)

Section Sequences.

Variable env : environment.

Lemma commit_config_ok_unloads (message : string) (self self' : PANOSDriver)
    (tr tr' : trace) :
  commit_config env message self tr = (Ok tt, self', tr') ->
  loaded self' = false /\ changed self' = true.
Proof.
  destruct self as [h u p l c dv ssh mc lo sl slc ak bf].
  run_method; intros [= <- <-]; simpl; split; reflexivity.
Qed.

Lemma commit_config_not_loaded (message : string) (self : PANOSDriver)
    (tr : trace) :
  loaded self = false ->
  commit_config env message self tr
    = (Exn (ReplaceConfigException "No config loaded."), self, tr).
Proof.
  intros Hl. unfold commit_config. unfold_monad. rewrite Hl. reflexivity.
Qed.

(** X10: [commit_config] needs a staged candidate.  After a
    [commit_config] that returned, or after a [discard_config] that
    dropped the candidate, a further [commit_config] raises
    [ReplaceConfigException] ("No config loaded.") without any call and
    without changing the driver, whatever [merge_config] says. *)
Theorem commit_needs_staged_candidate (message message' : string)
    (self self1 : PANOSDriver) (tr tr1 : trace) :
  (commit_config env message self tr = (Ok tt, self1, tr1) ->
   commit_config env message' self1 tr1
     = (Exn (ReplaceConfigException "No config loaded."), self1, tr1))
  /\ (loaded self = true ->
      discard_config env self tr = (Ok tt, self1, tr1) ->
      commit_config env message' self1 tr1
        = (Exn (ReplaceConfigException "No config loaded."), self1, tr1)).
Proof.
  split.
  - intros Hcommit. apply commit_config_not_loaded.
    apply (commit_config_ok_unloads _ _ _ _ _ Hcommit).
  - intros Hl Hdiscard. apply commit_config_not_loaded.
    revert Hl Hdiscard.
    destruct self as [h u p l c dv ssh mc lo sl slc ak bf]. simpl.
    intros ->. run_method; intros [= <- <-]; reflexivity.
Qed.

(** X11: [rollback] does not look at the status the device gives to the
    load of the backup: whatever it is, the commit over the shell
    follows.  When that commit returns, [loaded], [changed] and
    [merge_config] are all false, a candidate that was staged and not
    committed is given up with them, and a second [rollback] does
    nothing. *)
Theorem rollback_outcome (self self1 : PANOSDriver) (tr tr1 : trace)
    (file : string) (status : option string) :
  changed self = true ->
  backup_file self = Some file ->
  device self = true ->
  respond env _ tr (XapiOp (load_cmd file)) = inl status ->
  ensure_ssh env self (Event (Sleep 5) :: Event (XapiOp (load_cmd file)) :: tr)
    = (Ok tt, self1, tr1) ->
  respond env _ tr1 (SshCommit None) = inl tt ->
  let '(r, self', tr') := rollback env self tr in
  r = Ok tt
  /\ self' = set_merge_config false (set_changed false (set_loaded false self1))
  /\ tr' = Event (SshCommit None) :: tr1
  /\ rollback env self' tr' = (Ok tt, self', tr').
Proof.
  destruct self as [h u p l c dv ssh mc lo sl slc ak bf]. simpl.
  intros -> -> -> Hload.
  unfold rollback, read_backup_file, device_call, ensure_ssh, _open_ssh.
  unfold_monad. simpl. rewrite Hload.
  destruct ssh; simpl.
  - intros [= <- <-] ->. simpl. auto.
  - match goal with
    | |- context [respond env ?R ?t ?c] =>
        destruct (respond env R t c) as [[] | e'] eqn:Hc
    end; simpl; [| destruct e'; discriminate].
    intros [= <- <-] ->. simpl. auto.
Qed.

(** X12: what [discard_config] loads is what the stage saved.  A stage
    operation that starts with [loaded] false and returns has sent the
    save command for the file that [backup_file] names afterwards, and a
    [discard_config] that follows sends exactly the load of that file. *)
Theorem discard_loads_what_stage_saved (o : operation)
    (self self1 : PANOSDriver) (tr tr1 : trace) :
  loaded self = false ->
  is_stage o = true ->
  perform env o self tr = (Ok tt, self1, tr1) ->
  exists file new,
    backup_file self1 = Some file
    /\ extends tr new tr1
    /\ In (Event (XapiOp (save_cmd file))) new
    /\ forall r self2 tr2,
         discard_config env self1 tr1 = (r, self2, tr2) ->
         tr2 = Event (XapiOp (load_cmd file)) :: tr1.
Proof.
  destruct self as [h u p l c dv ssh mc lo sl slc ak bf]. simpl.
  intros -> Ho.
  destruct o; try discriminate; run_method; intros [= <- <-];
    (eexists; eexists; split; [reflexivity |]);
    (split; [solve_extends |]);
    (split; [simpl; repeat (first [left; reflexivity | right]) |]);
    intros r self2 tr2; run_method; intros [= <- <- <-]; reflexivity.
Qed.

End Sequences.

(** * Reading configuration and differences *)

Section Reading.

Variable env : environment.

(** X13: [get_config] never changes the driver.  With [full] or
    [sanitized] set it raises [NotImplementedError] before any call.  A
    [retrieve] other than [all], [running] and [candidate] gives three
    empty strings without a call.  [retrieve = "running"] leaves the
    candidate entry empty and [retrieve = "candidate"] the running entry.
    On a driver that is not open, reading a configuration raises
    [AttributeError] without a call. *)
Theorem get_config_retrieve (retrieve : string) (full sanitized : bool)
    (self : PANOSDriver) (tr : trace) :
  (forall r self' tr',
      get_config env retrieve full sanitized self tr = (r, self', tr') ->
      self' = self)
  /\ (full || sanitized = true ->
      exists msg,
        get_config env retrieve full sanitized self tr
          = (Exn (NotImplementedError msg), self, tr))
  /\ (full || sanitized = false ->
      retrieve <> "all" ->
      retrieve <> "running" ->
      retrieve <> "candidate" ->
      get_config env retrieve full sanitized self tr
        = (Ok empty_configs, self, tr))
  /\ (forall configs self' tr',
      get_config env retrieve full sanitized self tr = (Ok configs, self', tr') ->
      (retrieve = "running" -> configs !! "candidate" = Some "")
      /\ (retrieve = "candidate" -> configs !! "running" = Some ""))
  /\ (full || sanitized = false ->
      device self = false ->
      retrieve = "all" \/ retrieve = "running" \/ retrieve = "candidate" ->
      exists attr,
        get_config env retrieve full sanitized self tr
          = (Exn (none_has_no attr), self, tr)).
Proof.
  destruct self as [h u p l c dv ssh mc lo sl slc ak bf]. simpl.
  repeat apply conj.
  - intros r self' tr'. run_method; intros [= <- <- <-]; reflexivity.
  - destruct full, sanitized; try discriminate; intros _;
      unfold get_config; unfold_monad; eauto.
  - destruct full, sanitized; try discriminate. intros _ Hall Hrun Hcand.
    unfold get_config. unfold_monad. simpl.
    apply String.eqb_neq in Hall, Hrun, Hcand.
    rewrite Hall, Hrun, Hcand. reflexivity.
  - intros configs self' tr'.
    run_method; intros [= <- <- <-]; split; intros ->;
      try discriminate; reflexivity.
  - destruct full, sanitized; try discriminate. intros _ -> Hwhich.
    unfold get_config, _get_running, _get_candidate, device_call.
    unfold_monad.
    destruct Hwhich as [-> | [-> | ->]]; simpl; eauto.
Qed.








End Reading.

(** * What is sent when staging *)

Section StagingPayload.

Variable env : environment.

Lemma basename_from_cases (s : string) :
  forall acc,
    (no_slash s = true /\ Py.basename_from acc s = acc)
    \/ no_slash (Py.basename_from acc s) = true.
Proof.
  induction s as [| c r IH]; intros acc; [left; split; reflexivity |].
  cbn [Py.basename_from]. unfold no_slash in *. cbn [all_chars].
  destruct (Ascii.eqb c "/"%char) eqn:Hc; cbn [negb andb].
  - right. destruct (IH r) as [[Hr ->] | Hr]; exact Hr.
  - destruct (IH acc) as [[Hr Hacc] | Hr]; [left; split; assumption | right; exact Hr].
Qed.

Lemma basename_no_slash (s : string) : no_slash (Py.basename s) = true.
Proof.
  unfold Py.basename.
  destruct (basename_from_cases s s) as [[Hs ->] | Hs]; exact Hs.
Qed.

Lemma basename_from_plain (s acc : string) :
  no_slash s = true -> Py.basename_from acc s = acc.
Proof.
  revert acc. unfold no_slash.
  induction s as [| c r IH]; intros acc; [reflexivity |].
  cbn [all_chars Py.basename_from].
  destruct (Ascii.eqb c "/"%char); cbn [negb andb]; [discriminate |].
  apply IH.
Qed.

Lemma basename_from_path (dir name : string) :
  no_slash name = true ->
  forall acc, Py.basename_from acc (dir +:+ "/" +:+ name) = name.
Proof.
  intros Hname.
  induction dir as [| c d IH]; intros acc.
  - change ("" +:+ "/" +:+ name) with (String "/" name).
    cbn [Py.basename_from]. simpl. apply basename_from_plain, Hname.
  - change (String c d +:+ "/" +:+ name) with (String c (d +:+ "/" +:+ name)).
    cbn [Py.basename_from].
    destruct (Ascii.eqb c "/"%char); apply IH.
Qed.

(** X15: [_import_file] uploads under the base name of the file: the path
    it returns is what follows the last slash of [filename], so it holds
    no slash, and for [dir/name] it is [name].  With an API key in the
    driver no key is generated; without one, on a driver that is not
    open, the call raises [AttributeError] before anything is sent.  A
    device answer of [error] gives [False] (here [None]). *)
Theorem import_file_outcome (filename : string) (self : PANOSDriver)
    (tr : trace) :
  (forall path self' tr',
      _import_file env filename self tr = (Ok (Some path), self', tr') ->
      path = Py.basename filename /\ no_slash path = true)
  /\ (forall dir name,
      no_slash name = true ->
      Py.basename (dir +:+ "/" +:+ name) = name /\ Py.basename name = name)
  /\ (Py.truthy (api_key self) = true ->
      forall status,
        respond env _ tr (ImportPost (hostname self) (api_key self) filename)
          = inl status ->
        _import_file env filename self tr
          = (Ok (if String.eqb status "error" then None
                 else Some (Py.basename filename)),
             self,
             Event (ImportPost (hostname self) (api_key self) filename) :: tr))
  /\ (Py.truthy (api_key self) = false ->
      device self = false ->
      _import_file env filename self tr = (Exn (none_has_no "keygen"), self, tr)).
Proof.
  destruct self as [h u p l c dv ssh mc lo sl slc ak bf]. simpl.
  repeat apply conj.
  - intros path self' tr'.
    run_method; intros [= <- <- <-];
      (split; [reflexivity | apply basename_no_slash]).
  - intros dir name Hname. split.
    + apply basename_from_path, Hname.
    + apply basename_from_plain, Hname.
  - intros Hak status Hpost.
    unfold _import_file. unfold_monad. simpl. rewrite Hak. simpl.
    rewrite Hpost. destruct (String.eqb status "error"); reflexivity.
  - intros Hak ->.
    unfold _import_file, device_call. unfold_monad. simpl. rewrite Hak.
    reflexivity.
Qed.





End StagingPayload.

(** * The getters *)

Ltac unfold_getters :=
  unfold get_lldp_neighbors, get_route_to, lldp_neighbors_of, route_of,
    result_entry, parse_answer, int_of, protocol_if, device_call,
    Dyn.subscript, Dyn.get_method, Dyn.iterate, Dyn.contains, Dyn.as_key,
    Dyn.is_dict, Dyn.is_not_none in *.

(** Split on the next thing a getter branches on. *)
Ltac split_json :=
  match goal with
  | |- context [match ?x with _ => _ end] => is_var x; destruct x
  | |- context [respond ?e ?R ?t ?c] =>
      let H := fresh "Hanswer" in
      destruct (respond e R t c) as [? | ?] eqn:H
  | |- context [entry_of ?k ?d] => destruct (entry_of k d) as [? | ] eqn:?
  | |- context [match ?f ?x with inl _ => _ | inr _ => _ end] =>
      destruct (f x) as [? | ?] eqn:?
  end.

Section ResultEntry.

Variable env : environment.
Variable xmltodict_parse : string -> json + exn.
Variable py_int : string -> option Z.

Lemma result_entry_keeps (cmd : string) (self self' : PANOSDriver)
    (tr tr' : trace) (r : outcome json) :
  result_entry env xmltodict_parse cmd self tr = (r, self', tr') -> self' = self.
Proof.
  destruct self as [h u p l c dv ssh mc lo sl slc ak bf].
  unfold result_entry, parse_answer, device_call, Dyn.subscript. unfold_monad.
  repeat (simpl; split_json); simpl; intros [= <- <- <-]; reflexivity.
Qed.

Lemma result_entry_answer (cmd xml : string) (status : option string)
    (result : json) (self : PANOSDriver) (tr : trace) :
  device self = true ->
  respond env _ tr (XapiOp cmd) = inl status ->
  respond env _ (Event (XapiOp cmd) :: tr) XapiXmlRoot = inl xml ->
  xmltodict_parse xml = inl (answer_with result) ->
  result_entry env xmltodict_parse cmd self tr
  = Dyn.subscript result "entry" self
      (Event XapiXmlRoot :: Event (XapiOp cmd) :: tr).
Proof.
  destruct self as [h u p l c dv ssh mc lo sl slc ak bf]. simpl.
  intros -> Hop Hroot Hparse.
  unfold result_entry, parse_answer, device_call. unfold_monad. simpl.
  rewrite Hop. simpl. rewrite Hroot. simpl. rewrite Hparse. reflexivity.
Qed.


End ResultEntry.

Lemma pure_ret {St A} (a : A) : is_pure (ret a : M St A).
Proof. intros s tr. eexists. reflexivity. Qed.

Lemma pure_raise {St A} (e : exn) : is_pure (raise e : M St A).
Proof. intros s tr. eexists. reflexivity. Qed.

Lemma pure_bind {St A B} (m : M St A) (k : A -> M St B) :
  is_pure m -> (forall a, is_pure (k a)) -> is_pure (bind m k).
Proof.
  intros Hm Hk s tr. unfold bind. destruct (Hm s tr) as [r ->].
  destruct r as [a | e]; [apply Hk | eexists; reflexivity].
Qed.

Lemma pure_try_except {St A} (m : M St A) (h : exn -> M St A) :
  is_pure m -> (forall e, is_pure (h e)) -> is_pure (try_except m h).
Proof.
  intros Hm Hh s tr. unfold try_except. destruct (Hm s tr) as [r ->].
  destruct r as [a | e]; [eexists; reflexivity | apply Hh].
Qed.

Lemma pure_fold_each {St A B} (xs : list A) (body : B -> A -> M St B) :
  (forall acc x, is_pure (body acc x)) ->
  forall acc, is_pure (fold_each xs acc body).
Proof.
  intros Hbody. induction xs as [| x rest IH]; intros acc.
  - apply pure_ret.
  - cbn [fold_each]. apply pure_bind; [apply Hbody | intros acc'; apply IH].
Qed.

Lemma pure_subscript {St} (v : json) (key : string) :
  is_pure (Dyn.subscript v key : M St json).
Proof.
  unfold Dyn.subscript. destruct v; try apply pure_raise.
  destruct (entry_of key entries); [apply pure_ret | apply pure_raise].
Qed.

Lemma pure_get_method {St} (v : json) (key : string) :
  is_pure (Dyn.get_method v key : M St json).
Proof.
  unfold Dyn.get_method. destruct v; try apply pure_raise.
  destruct (entry_of key entries); apply pure_ret.
Qed.

Lemma pure_iterate {St} (v : json) : is_pure (Dyn.iterate v : M St (list json)).
Proof. destruct v; first [apply pure_ret | apply pure_raise]. Qed.

Lemma pure_as_key {St} (v : json) : is_pure (Dyn.as_key v : M St (option string)).
Proof. destruct v; first [apply pure_ret | apply pure_raise]. Qed.

Lemma pure_contains {St} (needle : string) (v : json) :
  is_pure (Dyn.contains needle v : M St bool).
Proof. destruct v; first [apply pure_ret | apply pure_raise]. Qed.

Ltac solve_pure :=
  repeat first
    [ apply pure_ret | apply pure_raise | apply pure_subscript
    | apply pure_get_method | apply pure_iterate | apply pure_as_key
    | apply pure_contains
    | apply pure_bind; [| intros ?]
    | apply pure_try_except; [| intros []]
    | apply pure_fold_each; intros ? ? ].

Section GetterProperties.

Variable env : environment.
Variable xmltodict_parse : string -> json + exn.
Variable py_int : string -> option Z.

Lemma pure_lldp_neighbors_of (table : json) : is_pure (lldp_neighbors_of table).
Proof. unfold lldp_neighbors_of. solve_pure. Qed.

Lemma pure_int_of (v : json) : is_pure (int_of py_int v).
Proof.
  unfold int_of. destruct v; try apply pure_raise.
  destruct (py_int s); [apply pure_ret | apply pure_raise].
Qed.

Lemma pure_route_of (route : json) : is_pure (route_of py_int route).
Proof.
  unfold route_of, protocol_if.
  repeat first
    [ apply pure_int_of
    | match goal with
      | |- is_pure (if ?b then _ else _) => destruct b
      end
    | solve_pure ].
Qed.

End GetterProperties.

Section Lldp.

Variable env : environment.
Variable xmltodict_parse : string -> json + exn.

(** X17: [get_lldp_neighbors] never changes the driver.  On a driver that
    is not open it returns the empty dict without a call, because the
    [AttributeError] is taken for an empty table.  On an open driver it
    sends one command and reads the answer; an answer whose result is
    empty makes it raise [TypeError] and one whose result has no [entry]
    makes it raise [KeyError]: neither is taken for an empty table.
    Otherwise the dict is built from the [entry] of the result. *)
Theorem get_lldp_neighbors_edges (self : PANOSDriver) (tr : trace) :
  (device self = false ->
   get_lldp_neighbors env xmltodict_parse self tr = (Ok [], self, tr))
  /\ (forall r self' tr',
      get_lldp_neighbors env xmltodict_parse self tr = (r, self', tr') ->
      self' = self)
  /\ (forall status xml result,
      let cmd := "<show><lldp><neighbors>all</neighbors></lldp></show>" in
      let answered := Event XapiXmlRoot :: Event (XapiOp cmd) :: tr in
      device self = true ->
      respond env _ tr (XapiOp cmd) = inl status ->
      respond env _ (Event (XapiOp cmd) :: tr) XapiXmlRoot = inl xml ->
      xmltodict_parse xml = inl (answer_with result) ->
      (result = JNone ->
       get_lldp_neighbors env xmltodict_parse self tr
       = (Exn (TypeError "'NoneType' object is not subscriptable"),
          self, answered))
      /\ (forall fields,
          result = JDict fields ->
          entry_of "entry" fields = None ->
          get_lldp_neighbors env xmltodict_parse self tr
          = (Exn (KeyError "entry"), self, answered))
      /\ (forall fields table,
          result = JDict fields ->
          entry_of "entry" fields = Some table ->
          get_lldp_neighbors env xmltodict_parse self tr
          = lldp_neighbors_of table self answered)).
Proof.
  repeat apply conj.
  - intros Hdev. unfold get_lldp_neighbors, result_entry, device_call.
    unfold_monad. rewrite Hdev. reflexivity.
  - intros r self' tr'. unfold get_lldp_neighbors.
    unfold bind at 1. unfold try_except.
    destruct (result_entry env xmltodict_parse _ self tr) as [[r0 self0] tr0]
      eqn:Hentry.
    apply result_entry_keeps in Hentry. subst self0.
    assert (Hpure : forall table,
      lldp_neighbors_of table self tr0 = (r, self', tr') -> self' = self).
    { intros table Hrun.
      destruct (pure_lldp_neighbors_of table self tr0) as [r' Hr'].
      congruence. }
    destruct r0 as [table | e]; [apply Hpure |].
    destruct e; unfold ret, raise;
      try (intros [= <- <- <-]; reflexivity); apply Hpure.
  - intros status xml result cmd answered Hdev Hop Hroot Hparse.
    pose proof (result_entry_answer env xmltodict_parse cmd xml status result
                  self tr Hdev Hop Hroot Hparse) as Hfetch.
    subst cmd answered.
    repeat apply conj.
    + intros ->. unfold get_lldp_neighbors, bind, try_except.
      rewrite Hfetch. reflexivity.
    + intros fields -> Hnone. unfold get_lldp_neighbors, bind, try_except.
      rewrite Hfetch. unfold Dyn.subscript. rewrite Hnone. reflexivity.
    + intros fields table -> Hsome. unfold get_lldp_neighbors, bind, try_except.
      rewrite Hfetch. unfold Dyn.subscript. rewrite Hsome. reflexivity.
Qed.

Lemma fold_each_related {St A B C} (R : A -> C -> Prop)
    (body : B -> A -> M St B) (step : B -> C -> B) (s : St) (tr : trace) :
  (forall acc x c, R x c -> body acc x s tr = (Ok (step acc c), s, tr)) ->
  forall xs cs,
    Forall2 R xs cs ->
    forall acc,
      fold_each xs acc body s tr = (Ok (fold_left step cs acc), s, tr).
Proof.
  intros Hbody xs cs Hall.
  induction Hall as [| x c xs cs Hx _ IH]; intros acc; [reflexivity |].
  cbn [fold_each fold_left]. unfold bind. rewrite (Hbody acc x c Hx).
  apply IH.
Qed.

Lemma append_at_all (key : option string) (ns before : list lldp_neighbor) :
  Dyn.key_eqb key key = true ->
  fold_left (fun acc n => Dyn.append_at key n acc) ns [(key, before)]
  = [(key, before ++ ns)].
Proof.
  intros Hkey. revert before.
  induction ns as [| n ns IH]; intros before.
  - simpl. rewrite app_nil_r. reflexivity.
  - cbn [fold_left Dyn.append_at]. rewrite Hkey, IH, <- app_assoc.
    reflexivity.
Qed.

(** X18: what [get_lldp_neighbors] makes of one interface of the table.
    An interface given as a dict and the same interface in a one-element
    list give the same result.  An interface with no neighbors is listed
    with an empty list.  Its neighbors, given as a list or as a single
    dict, are listed in order with their system name and port.  A
    [neighbors] child without an [entry] makes the getter raise
    [TypeError]. *)
Theorem lldp_neighbors_of_interface (fields : list (string * json))
    (name : string) (self : PANOSDriver) (tr : trace) :
  entry_of "@name" fields = Some (JStr name) ->
  lldp_neighbors_of (JList [JDict fields]) self tr
    = lldp_neighbors_of (JDict fields) self tr
  /\ (without_neighbors fields ->
      lldp_neighbors_of (JDict fields) self tr
      = (Ok [(Some name, [])], self, tr))
  /\ (forall found items ns,
      entry_of "neighbors" fields = Some (JDict found) ->
      entry_of "entry" found = Some (JList items) ->
      Forall2 describes items ns ->
      lldp_neighbors_of (JDict fields) self tr
      = (Ok [(Some name, ns)], self, tr))
  /\ (forall found item n,
      entry_of "neighbors" fields = Some (JDict found) ->
      entry_of "entry" found = Some item ->
      describes item n ->
      lldp_neighbors_of (JDict fields) self tr
      = (Ok [(Some name, [n])], self, tr))
  /\ (forall found,
      entry_of "neighbors" fields = Some (JDict found) ->
      entry_of "entry" found = None ->
      lldp_neighbors_of (JDict fields) self tr
      = (Exn (TypeError "'NoneType' object is not iterable"), self, tr)).
Proof.
  intros Hname.
  assert (Hkey : Dyn.key_eqb (Some name) (Some name) = true)
    by apply String.eqb_refl.
  repeat apply conj.
  - reflexivity.
  - unfold without_neighbors. intros Hnone.
    unfold lldp_neighbors_of. unfold_monad. simpl. rewrite Hname. simpl.
    destruct (entry_of "neighbors" fields) as [[| s | items | found] |];
      try contradiction; reflexivity.
  - intros found items ns Hfound Hentry Hns.
    unfold lldp_neighbors_of. unfold_monad. simpl. rewrite Hname. simpl.
    rewrite Hfound. simpl. rewrite Hentry. simpl.
    unfold bind, ret. cbn beta.
    erewrite (fold_each_related describes _
                (fun acc n => Dyn.append_at (Some name) n acc));
      [rewrite (append_at_all _ _ _ Hkey); reflexivity | | exact Hns].
    intros acc x n (nfields & -> & Hsys & Hport).
    simpl. rewrite Hsys. simpl. rewrite Hport. destruct n. reflexivity.
  - intros found item n Hfound Hentry (nfields & -> & Hsys & Hport).
    unfold lldp_neighbors_of. unfold_monad. simpl. rewrite Hname. simpl.
    rewrite Hfound. simpl. rewrite Hentry. simpl.
    rewrite Hsys. simpl. rewrite Hport. simpl.
    rewrite String.eqb_refl. destruct n. reflexivity.
  - intros found Hfound Hentry.
    unfold lldp_neighbors_of. unfold_monad. simpl. rewrite Hname. simpl.
    rewrite Hfound. simpl. rewrite Hentry. reflexivity.
Qed.

End Lldp.

Lemma append_assoc (a b c : string) : (a +:+ b) +:+ c = a +:+ (b +:+ c).
Proof.
  induction a as [| x r IH]; [reflexivity |].
  change (String x (r +:+ b) +:+ c = String x (r +:+ b +:+ c)).
  change (String x ((r +:+ b) +:+ c) = String x (r +:+ b +:+ c)).
  rewrite IH. reflexivity.
Qed.

Section Routes.

Variable env : environment.
Variable xmltodict_parse : string -> json + exn.
Variable py_int : string -> option Z.

Lemma pure_routes_of (each : list json) :
  forall routes : list (option string * list route_details),
    is_pure (fold_each each routes (fun routes route =>
      found <- route_of py_int route ;;
      destination <- Dyn.as_key (fst found) ;;
      let routes := Dyn.ensure_key destination routes in
      ret (Dyn.append_at destination (snd found) routes))
      : M PANOSDriver _).
Proof.
  apply pure_fold_each. intros acc x.
  apply pure_bind; [apply pure_route_of | intros found].
  solve_pure.
Qed.

(** X19: [get_route_to] never changes the driver.  With [longer] set it
    raises [NotImplementedError] before any call.  On a driver that is not
    open it returns the empty dict without a call.  The command it sends
    holds the protocol before the destination, each only when given.  An
    answer whose result has no [entry] gives the empty dict, the
    [KeyError] being taken for an empty table; an answer whose result is
    empty still raises [TypeError]. *)
Theorem get_route_to_edges (destination protocol : string)
    (self : PANOSDriver) (tr : trace) :
  get_route_to env xmltodict_parse py_int destination protocol true self tr
    = (Exn (NotImplementedError "Longer is not implemented for this platform"),
       self, tr)
  /\ (device self = false ->
      get_route_to env xmltodict_parse py_int destination protocol false self tr
      = (Ok [], self, tr))
  /\ (forall longer r self' tr',
      get_route_to env xmltodict_parse py_int destination protocol longer self tr
        = (r, self', tr') ->
      self' = self)
  /\ (route_cmd "" "" = "<show><routing><route></route></routing></show>"
      /\ (Py.truthy destination = true ->
          Py.truthy protocol = true ->
          route_cmd destination protocol
          = "<show><routing><route><type>" +:+ protocol +:+ "</type><destination>"
              +:+ destination +:+ "</destination></route></routing></show>"))
  /\ (forall status xml result,
      let cmd := route_cmd destination protocol in
      let answered := Event XapiXmlRoot :: Event (XapiOp cmd) :: tr in
      device self = true ->
      respond env _ tr (XapiOp cmd) = inl status ->
      respond env _ (Event (XapiOp cmd) :: tr) XapiXmlRoot = inl xml ->
      xmltodict_parse xml = inl (answer_with result) ->
      (forall fields,
          result = JDict fields ->
          entry_of "entry" fields = None ->
          get_route_to env xmltodict_parse py_int destination protocol false
            self tr
          = (Ok [], self, answered))
      /\ (result = JNone ->
          get_route_to env xmltodict_parse py_int destination protocol false
            self tr
          = (Exn (TypeError "'NoneType' object is not subscriptable"),
             self, answered))).
Proof.
  repeat apply conj.
  - reflexivity.
  - intros Hdev. unfold get_route_to, result_entry, device_call.
    unfold_monad. rewrite Hdev. reflexivity.
  - intros longer r self' tr'. unfold get_route_to.
    destruct longer; [intros [= <- <- <-]; reflexivity |].
    unfold bind at 1. unfold try_except.
    destruct (result_entry env xmltodict_parse _ self tr) as [[r0 self0] tr0]
      eqn:Hentry.
    apply result_entry_keeps in Hentry. subst self0.
    assert (Hpure : forall table,
      (each <- Dyn.iterate
                 (if Dyn.is_dict table then JList [table] else table) ;;
       fold_each each [] (fun routes route =>
         found <- route_of py_int route ;;
         destination <- Dyn.as_key (fst found) ;;
         let routes := Dyn.ensure_key destination routes in
         ret (Dyn.append_at destination (snd found) routes))) self tr0
      = (r, self', tr') -> self' = self).
    { intros table Hrun.
      assert (Hp : is_pure
        (each <- Dyn.iterate
                   (if Dyn.is_dict table then JList [table] else table) ;;
         fold_each each [] (fun routes route =>
           found <- route_of py_int route ;;
           destination <- Dyn.as_key (fst found) ;;
           let routes := Dyn.ensure_key destination routes in
           ret (Dyn.append_at destination (snd found) routes))
         : M PANOSDriver _)).
      { apply pure_bind; [apply pure_iterate | intros each; apply pure_routes_of]. }
      destruct (Hp self tr0) as [r' Hr']. congruence. }
    destruct r0 as [table | e]; [apply Hpure |].
    destruct e; unfold ret, raise; cbn [is_key_error];
      try (intros [= <- <- <-]; reflexivity);
      try apply Hpure.
    destruct (String.eqb class "KeyError");
      [apply Hpure | intros [= <- <- <-]; reflexivity].
  - reflexivity.
  - intros Hd Hp. unfold route_cmd. rewrite Hd, Hp.
    rewrite !append_assoc. reflexivity.
  - intros status xml result cmd answered Hdev Hop Hroot Hparse.
    pose proof (result_entry_answer env xmltodict_parse cmd xml status result
                  self tr Hdev Hop Hroot Hparse) as Hfetch.
    subst cmd answered. split.
    + intros fields -> Hnone.
      unfold get_route_to, bind, try_except. rewrite Hfetch.
      unfold Dyn.subscript. rewrite Hnone. reflexivity.
    + intros ->.
      unfold get_route_to, bind, try_except. rewrite Hfetch. reflexivity.
Qed.

(** X20: the details [get_route_to] records for one route whose flags are
    a string.  [current_active] says whether the flags hold [A];
    [protocol] follows the last test that matches, so host wins over bgp,
    ospf, rip, static and connect in that order, and is empty when none
    occurs; [age] and [preference] stay -1, [next_hop] and
    [outgoing_interface] empty and [routing_table] [default] where the
    device gives nothing.  A route without [flags] makes the getter raise
    [KeyError] and one whose flags are empty [TypeError]: neither is taken
    for an empty table. *)
Theorem route_of_details (fields : list (string * json)) (destination : json)
    (self : PANOSDriver) (tr : trace) :
  entry_of "destination" fields = Some destination ->
  (forall flags route_age nexthop interface metric virtual_router a m,
      entry_of "flags" fields = Some (JStr flags) ->
      entry_of "age" fields = Some route_age ->
      entry_of "nexthop" fields = Some nexthop ->
      entry_of "interface" fields = Some interface ->
      entry_of "metric" fields = Some metric ->
      entry_of "virtual-router" fields = Some virtual_router ->
      number_or py_int (-1) route_age = Some a ->
      number_or py_int (-1) metric = Some m ->
      route_of py_int (JDict fields) self tr
      = (Ok (destination,
             {| current_active := has_flag "A" flags;
                last_active := false;
                age := a;
                next_hop := value_or (JStr "") nexthop;
                protocol := protocol_by_precedence flags;
                outgoing_interface := value_or (JStr "") interface;
                preference := m;
                inactive_reason := "";
                routing_table := value_or (JStr "default") virtual_router;
                selected_next_hop := false;
                protocol_attributes := [] |}),
         self, tr))
  /\ (entry_of "flags" fields = None ->
      route_of py_int (JDict fields) self tr = (Exn (KeyError "flags"), self, tr))
  /\ (entry_of "flags" fields = Some JNone ->
      route_of py_int (JDict fields) self tr
      = (Exn (TypeError "argument of type 'NoneType' is not iterable"), self, tr)).
Proof.
  intros Hdest. repeat apply conj.
  - intros flags route_age nexthop interface metric virtual_router a m
      Hflags Hage Hhop Hif Hmetric Hvr Ha Hm.
    unfold route_of, protocol_if, int_of. unfold_monad. simpl.
    rewrite Hdest. simpl. rewrite Hflags. simpl.
    unfold protocol_by_precedence, has_flag.
    destruct (String.index 0 "A" flags), (String.index 0 "C" flags),
      (String.index 0 "S" flags), (String.index 0 "R" flags),
      (String.index 0 "O" flags), (String.index 0 "B" flags),
      (String.index 0 "H" flags); simpl;
      rewrite Hage; simpl;
      (destruct route_age as [| sa | la | da]; simpl in Ha; try discriminate;
       [injection Ha as <- | rewrite Ha]); simpl;
      rewrite Hhop; simpl; rewrite Hif; simpl; rewrite Hmetric; simpl;
      (destruct metric as [| sm | lm | dm]; simpl in Hm; try discriminate;
       [injection Hm as <- | rewrite Hm]); simpl;
      rewrite Hvr; simpl;
      destruct nexthop, interface, virtual_router; reflexivity.
  - intros Hflags. unfold route_of. unfold_monad. simpl.
    rewrite Hdest. simpl. rewrite Hflags. reflexivity.
  - intros Hflags. unfold route_of. unfold_monad. simpl.
    rewrite Hdest. simpl. rewrite Hflags. reflexivity.
Qed.

End Routes.

Section InterfacesIp.

Variable env : environment.
Variable xmltodict_parse : string -> json + exn.
Variable py_int : string -> option Z.

Lemma append_empty (s : string) : s +:+ "" = s.
Proof.
  induction s as [| c r IH]; [reflexivity |].
  change (String c (r +:+ "") = String c r). rewrite IH. reflexivity.
Qed.

Lemma split_from_plain (s : string) :
  no_slash s = true ->
  forall cur, split_from "/" cur s = [cur +:+ s].
Proof.
  unfold no_slash.
  induction s as [| c r IH]; intros Hs cur.
  - simpl. rewrite append_empty. reflexivity.
  - cbn [all_chars] in Hs. apply andb_true_iff in Hs as [Hc Hr].
    apply negb_true_iff in Hc.
    cbn [split_from]. rewrite Hc, (IH Hr), append_assoc. reflexivity.
Qed.

Lemma split_from_pair (a p : string) :
  no_slash a = true ->
  no_slash p = true ->
  forall cur, split_from "/" cur (a +:+ "/" +:+ p) = [cur +:+ a; p].
Proof.
  unfold no_slash at 1.
  induction a as [| c r IH]; intros Ha Hp cur.
  - change ("" +:+ "/" +:+ p) with (String "/" p).
    cbn [split_from]. simpl. rewrite append_empty.
    rewrite (split_from_plain p Hp). reflexivity.
  - cbn [all_chars] in Ha. apply andb_true_iff in Ha as [Hc Hr].
    apply negb_true_iff in Hc.
    change (String c r +:+ "/" +:+ p) with (String c (r +:+ "/" +:+ p)).
    cbn [split_from]. rewrite Hc, (IH Hr Hp), append_assoc. reflexivity.
Qed.

Lemma address_and_prefix_ok (a p : string) (n : Z) (self : PANOSDriver)
    (tr : trace) :
  no_slash a = true ->
  no_slash p = true ->
  py_int p = Some n ->
  address_and_prefix py_int (JStr (a +:+ "/" +:+ p)) self tr
  = (Ok (a, n), self, tr).
Proof.
  intros Ha Hp Hn.
  unfold address_and_prefix, split_slash, unpack_pair, int_of. unfold_monad.
  rewrite (split_from_pair a p Ha Hp). simpl. rewrite Hn. reflexivity.
Qed.

(** X21: what [get_interfaces_ip] extracts for one interface.  With the
    primary address [N/A] and no further addresses the interface is left
    out.  A primary address [a/p] is recorded under [ipv4] with prefix
    length [int(p)]; a single IPv6 member, given as plain text or in a
    one-element list, is recorded under [ipv6] alike.  An interface
    without an [ip] child makes the getter raise [AttributeError], and a
    primary address without a slash [ValueError]. *)
Theorem extract_ip_info_outcome (fields : list (string * json)) (name : string)
    (self : PANOSDriver) (tr : trace) :
  entry_of "name" fields = Some (JStr name) ->
  entry_of "addr" fields = None ->
  (entry_of "ip" fields = Some (JStr "N/A") ->
   entry_of "addr6" fields = None ->
   extract_ip_info py_int (JDict fields) self tr = (Ok None, self, tr))
  /\ (forall a p n,
      entry_of "ip" fields = Some (JStr (a +:+ "/" +:+ p)) ->
      entry_of "addr6" fields = None ->
      a +:+ "/" +:+ p <> "N/A" ->
      no_slash a = true ->
      no_slash p = true ->
      py_int p = Some n ->
      extract_ip_info py_int (JDict fields) self tr
      = (Ok (Some (Some name, {| ipv4 := Some [(a, n)]; ipv6 := None |})),
         self, tr))
  /\ (forall group member a p n,
      entry_of "ip" fields = Some (JStr "N/A") ->
      entry_of "addr6" fields = Some (JDict group) ->
      entry_of "member" group = Some member ->
      member = JStr (a +:+ "/" +:+ p) \/ member = JList [JStr (a +:+ "/" +:+ p)] ->
      no_slash a = true ->
      no_slash p = true ->
      py_int p = Some n ->
      extract_ip_info py_int (JDict fields) self tr
      = (Ok (Some (Some name, {| ipv4 := None; ipv6 := Some [(a, n)] |})),
         self, tr))
  /\ (entry_of "ip" fields = None ->
      extract_ip_info py_int (JDict fields) self tr
      = (Exn (AttributeError "'NoneType' object has no attribute 'split'"),
         self, tr))
  /\ (forall s,
      entry_of "ip" fields = Some (JStr s) ->
      s <> "N/A" ->
      no_slash s = true ->
      extract_ip_info py_int (JDict fields) self tr
      = (Exn (ValueError "not enough values to unpack (expected 2, got 1)"),
         self, tr)).
Proof.
  intros Hname Haddr. repeat apply conj.
  - intros Hip H6. unfold extract_ip_info. unfold_monad. simpl.
    rewrite Hname. simpl. rewrite Hip. simpl. rewrite Haddr. simpl.
    rewrite H6. reflexivity.
  - intros a p n Hip H6 Hna Ha Hp Hn.
    apply String.eqb_neq in Hna.
    unfold extract_ip_info. unfold bind at 1. unfold Dyn.subscript at 1.
    rewrite Hname. unfold ret at 1. unfold bind at 1. unfold Dyn.as_key at 1.
    unfold ret at 1. unfold bind at 1. unfold Dyn.get_method at 1.
    rewrite Hip. unfold ret at 1. unfold bind at 1. unfold Dyn.get_method at 1.
    rewrite Haddr. unfold ret at 1. unfold bind at 1.
    unfold Dyn.get_method at 1. rewrite H6. unfold ret at 1.
    unfold Dyn.equals_str. rewrite Hna. cbn [negb].
    unfold bind at 1. unfold bind at 1.
    rewrite (address_and_prefix_ok a p n self tr Ha Hp Hn).
    reflexivity.
  - intros group member a p n Hip H6 Hmember Hshape Ha Hp Hn.
    assert (Hfold :
      add_members py_int set_ipv6 (JDict group) {| ipv4 := None; ipv6 := None |}
        self tr
      = (Ok {| ipv4 := None; ipv6 := Some [(a, n)] |}, self, tr)).
    { unfold add_members. unfold bind at 1. unfold Dyn.subscript.
      rewrite Hmember. unfold ret at 1.
      destruct Hshape as [-> | ->]; cbn [fold_each];
        unfold bind at 1; unfold bind at 1;
        rewrite (address_and_prefix_ok a p n self tr Ha Hp Hn);
        reflexivity. }
    unfold extract_ip_info. unfold bind at 1. unfold Dyn.subscript at 1.
    rewrite Hname. unfold ret at 1. unfold bind at 1. unfold Dyn.as_key at 1.
    unfold ret at 1. unfold bind at 1. unfold Dyn.get_method at 1.
    rewrite Hip. unfold ret at 1. unfold bind at 1. unfold Dyn.get_method at 1.
    rewrite Haddr. unfold ret at 1. unfold bind at 1.
    unfold Dyn.get_method at 1. rewrite H6. unfold ret at 1.
    cbn [Dyn.equals_str Dyn.is_not_none negb]. simpl (String.eqb _ _).
    cbn [negb]. unfold bind at 1. unfold ret at 1.
    unfold bind at 1. unfold ret at 1.
    unfold bind at 1. rewrite Hfold. reflexivity.
  - intros Hip. unfold extract_ip_info. unfold_monad. simpl.
    rewrite Hname. simpl. rewrite Hip. simpl. rewrite Haddr. simpl.
    destruct (entry_of "addr6" fields); reflexivity.
  - intros s Hip Hna Hs.
    apply String.eqb_neq in Hna.
    unfold extract_ip_info, address_and_prefix, split_slash. unfold_monad.
    simpl. rewrite Hname. simpl. rewrite Hip. simpl. rewrite Haddr. simpl.
    destruct (entry_of "addr6" fields); simpl; rewrite Hna; simpl;
      rewrite (split_from_plain s Hs); reflexivity.
Qed.

Lemma pure_extract_ip_info (v : json) : is_pure (extract_ip_info py_int v).
Proof.
  unfold extract_ip_info, add_members, address_and_prefix, split_slash,
    unpack_pair.
  repeat first
    [ apply pure_int_of
    | match goal with
      | |- is_pure (if ?b then _ else _) => destruct b
      | |- is_pure (match ?x with _ => _ end) => destruct x
      end
    | solve_pure ].
Qed.

Lemma keeps_pure {St A} (m : M St A) : is_pure m -> keeps_state m.
Proof.
  intros Hp s tr r s' tr' Hrun. destruct (Hp s tr) as [r' Hr']. congruence.
Qed.

Lemma keeps_bind {St A B} (m : M St A) (k : A -> M St B) :
  keeps_state m -> (forall a, keeps_state (k a)) -> keeps_state (bind m k).
Proof.
  intros Hm Hk s tr r s' tr'. unfold bind.
  destruct (m s tr) as [[r0 s0] tr0] eqn:Hrun.
  apply Hm in Hrun. subst s0.
  destruct r0 as [a | e]; [apply Hk | intros [= <- <- <-]; reflexivity].
Qed.

Lemma keeps_device_call {R} (attr : string) (c : call R) :
  keeps_state (device_call env attr c).
Proof.
  intros s tr r s' tr'. unfold device_call. unfold_monad.
  destruct (device s); [| intros [= <- <- <-]; reflexivity].
  destruct (respond env R tr c); intros [= <- <- <-]; reflexivity.
Qed.

(** X22: [get_interfaces_ip] never changes the driver, and on a driver
    that is not open it raises [AttributeError] without a call, where
    [get_lldp_neighbors] and [get_route_to] take the same error for an
    empty table and return an empty dict. *)
Theorem get_interfaces_ip_edges (self : PANOSDriver) (tr : trace) :
  (device self = false ->
   get_interfaces_ip env xmltodict_parse py_int self tr
   = (Exn (none_has_no "op"), self, tr)
   /\ get_lldp_neighbors env xmltodict_parse self tr = (Ok [], self, tr)
   /\ get_route_to env xmltodict_parse py_int "" "" false self tr
      = (Ok [], self, tr))
  /\ (forall r self' tr',
      get_interfaces_ip env xmltodict_parse py_int self tr = (r, self', tr') ->
      self' = self).
Proof.
  split.
  - intros Hdev.
    unfold get_interfaces_ip, get_lldp_neighbors, get_route_to, result_entry,
      device_call.
    unfold_monad. rewrite Hdev. repeat split.
  - intros r self' tr'.
    assert (Hkeeps : keeps_state (get_interfaces_ip env xmltodict_parse py_int)).
    { unfold get_interfaces_ip.
      apply keeps_bind; [apply keeps_device_call | intros _].
      apply keeps_bind; [apply keeps_device_call | intros xml].
      apply keeps_pure.
      apply pure_bind;
        [unfold parse_answer; destruct (xmltodict_parse xml); solve_pure
        | intros parsed].
      do 4 (apply pure_bind; [apply pure_subscript | intros ?]).
      apply pure_bind; [apply pure_iterate | intros each].
      apply pure_fold_each. intros acc x.
      apply pure_bind; [apply pure_extract_ip_info |].
      intros [[intf info] |]; apply pure_ret. }
    apply Hkeeps.
Qed.

End InterfacesIp.

Section Alive.

Variable env : environment.

(** X23: [is_alive] never changes the driver.  After a [close] that
    returned it reports [False] without a call.  On an open driver
    without shell channel it reports [True] without a call, and with a
    shell channel it reports what the transport of that channel
    answers. *)
Theorem is_alive_outcome (self : PANOSDriver) (tr : trace) :
  (forall r self' tr', is_alive env self tr = (r, self', tr') -> self' = self)
  /\ (forall before tr0,
      close env before tr0 = (Ok tt, self, tr) ->
      is_alive env self tr = (Ok {[ "is_alive" := false ]}, self, tr))
  /\ (device self = true ->
      ssh_connection self = false ->
      is_alive env self tr = (Ok {[ "is_alive" := true ]}, self, tr))
  /\ (device self = true ->
      ssh_connection self = true ->
      forall active,
        respond env _ tr SshIsActive = inl active ->
        is_alive env self tr
        = (Ok {[ "is_alive" := active ]}, self, Event SshIsActive :: tr)).
Proof.
  repeat apply conj.
  - intros r self' tr'.
    destruct self as [h u p l c dv ssh mc lo sl slc ak bf].
    run_method; intros [= <- <- <-]; reflexivity.
  - intros before tr0 Hclose.
    assert (Hdev : device self = false).
    { revert Hclose.
      destruct before as [h u p l c dv ssh mc lo sl slc ak bf].
      run_method; intros [= <- <-]; reflexivity. }
    unfold is_alive. unfold_monad. rewrite Hdev. reflexivity.
  - intros Hdev Hssh. unfold is_alive. unfold_monad. rewrite Hdev, Hssh.
    reflexivity.
  - intros Hdev Hssh active Hactive.
    unfold is_alive. unfold_monad. rewrite Hdev, Hssh, Hactive. reflexivity.
Qed.

End Alive.

(** * Concrete runs of the further properties *)

Lemma unlock_order_and_failure_witness :
  locked (set_locked true fresh_lock) = true
  /\ unlock commit_release_refused (set_locked true fresh_lock) []
     = (Exn (UnlockError "Failed to release commit-lock: commit lock not found"),
        set_locked true fresh_lock,
        [Event (XapiOp (RELEASE_LOCK_API_CMD "commit"));
         Event (XapiOp (RELEASE_LOCK_API_CMD "config"))]).
Proof.
  split; [reflexivity |].
  destruct (unlock_order_and_failure commit_release_refused
              (set_locked true fresh_lock) [] eq_refl) as (_ & Hcommit & _).
  exact (Hcommit (Some "success") "commit lock not found" eq_refl eq_refl).
Defined.

Lemma discard_config_outcome_witness :
  loaded (fst (staged healthy plain_driver)) = true
  /\ discard_config healthy
       (fst (staged healthy plain_driver)) (snd (staged healthy plain_driver))
     = (Ok tt,
        set_merge_config false (set_loaded false (fst (staged healthy plain_driver))),
        Event (XapiOp (load_cmd "config_2024-01-15.xml"))
          :: snd (staged healthy plain_driver)).
Proof.
  split; [reflexivity |].
  destruct (discard_config_outcome healthy
              (fst (staged healthy plain_driver))
              (snd (staged healthy plain_driver))) as (_ & Hstaged & _).
  exact (Hstaged eq_refl "config_2024-01-15.xml" (Some "success")
           eq_refl eq_refl eq_refl).
Defined.

Lemma close_outcome_witness :
  close healthy
    (fst (staged healthy plain_driver)) (snd (staged healthy plain_driver))
  = (Ok tt,
     fst (run healthy [Open; merge_a_b; Close] plain_driver []),
     snd (run healthy [Open; merge_a_b; Close] plain_driver []))
  /\ device (fst (run healthy [Open; merge_a_b; Close] plain_driver [])) = false
  /\ ssh_connection (fst (run healthy [Open; merge_a_b; Close] plain_driver []))
     = false
  /\ loaded (fst (run healthy [Open; merge_a_b; Close] plain_driver [])) = true.
Proof.
  destruct (close_outcome healthy
              (fst (staged healthy plain_driver))
              (snd (staged healthy plain_driver))) as (Hflags & Hclosed & _).
  split; [reflexivity |].
  destruct (Hclosed _ _ eq_refl) as (Hdev & Hssh & _).
  destruct (Hflags _ _ _ eq_refl) as (Hl & _).
  split; [exact Hdev | split; [exact Hssh | exact Hl]].
Defined.

Lemma open_outcome_witness :
  _session_config_lock plain_driver = false
  /\ open healthy plain_driver []
     = (Ok tt, set_device true plain_driver,
        [Event (PanXapiNew "fw1" None (Some ("admin", "secret")))]).
Proof.
  split; [reflexivity |].
  destruct (open_outcome healthy plain_driver []) as (_ & Hplain & _).
  exact (Hplain tt eq_refl eq_refl).
Defined.

Lemma load_merge_candidate_arguments_witness :
  Py.truthy "missing.set" = true
  /\ load_merge_candidate file_missing (Some "missing.set") None
       (fst (opened file_missing plain_driver))
       (snd (opened file_missing plain_driver))
     = (Exn (MergeConfigException
               "Error while opening missing.set. Make sure filename is correct."),
        fst (opened file_missing plain_driver),
        Event (ReadFile "missing.set") :: snd (opened file_missing plain_driver)).
Proof.
  split; [reflexivity |].
  destruct (load_merge_candidate_arguments file_missing (Some "missing.set") None
              (fst (opened file_missing plain_driver))
              (snd (opened file_missing plain_driver)))
    as (_ & _ & Hunreadable & _).
  exact (Hunreadable "missing.set" "No such file or directory"
           eq_refl eq_refl eq_refl).
Defined.

Lemma replace_keeps_merge_config_witness :
  merge_config (fst (staged second_commit_times_out plain_driver)) = true
  /\ commit_config second_commit_times_out "m"
       (fst (run second_commit_times_out [Open; merge_a_b; replace_new_xml]
               plain_driver []))
       (snd (run second_commit_times_out [Open; merge_a_b; replace_new_xml]
               plain_driver []))
     = (Exn (MergeConfigException "Error while commiting config"),
        fst (run second_commit_times_out [Open; merge_a_b; replace_new_xml]
               plain_driver []),
        Event (SshCommit (Some "m"))
          :: snd (run second_commit_times_out [Open; merge_a_b; replace_new_xml]
                    plain_driver [])).
Proof.
  split; [reflexivity |].
  destruct (replace_keeps_merge_config second_commit_times_out
              (Some "/tmp/new.xml") None "m"
              (fst (staged second_commit_times_out plain_driver))
              (fst (run second_commit_times_out [Open; merge_a_b; replace_new_xml]
                      plain_driver []))
              (fst (run second_commit_times_out [Open; merge_a_b; replace_new_xml]
                      plain_driver []))
              (snd (staged second_commit_times_out plain_driver))
              (snd (run second_commit_times_out [Open; merge_a_b; replace_new_xml]
                      plain_driver []))
              (snd (run second_commit_times_out [Open; merge_a_b; replace_new_xml]
                      plain_driver []))
              (Ok tt) eq_refl) as (_ & Hcommit).
  exact (Hcommit eq_refl eq_refl eq_refl
           (OtherError "ReadTimeout" "commit timed out") eq_refl).
Defined.

Lemma shell_channel_lazy_witness :
  ssh_connection (fst (opened healthy plain_driver)) = false
  /\ (let '(_, self', tr') :=
        perform healthy CompareConfig
          (fst (opened healthy plain_driver)) (snd (opened healthy plain_driver)) in
      exists new,
        extends (snd (opened healthy plain_driver)) new tr'
        /\ length (List.filter is_connect new) <= 1
        /\ (existsb is_connect new = true ->
            ssh_connection (fst (opened healthy plain_driver)) = false
            /\ uses_shell CompareConfig = true)
        /\ (ssh_connection (fst (opened healthy plain_driver)) = false ->
            ssh_connection self' = true ->
            existsb is_connect new = true)
        /\ (ssh_connection (fst (opened healthy plain_driver)) = true ->
            ssh_connection self' = false ->
            is_close CompareConfig = true)).
Proof.
  split; [reflexivity |].
  exact (shell_channel_lazy healthy CompareConfig
           (fst (opened healthy plain_driver)) (snd (opened healthy plain_driver))).
Defined.

Lemma sessions_without_locking_witness :
  _session_config_lock (init "fw1" "admin" "secret" None) = false
  /\ (let '(self', tr') :=
        run healthy [Open; merge_a_b; CommitConfig "m"; Rollback; Close]
          (init "fw1" "admin" "secret" None) [] in
      _lock_object self' = None
      /\ forallb (fun e => negb (is_lock_command e)) tr' = true).
Proof.
  split; [reflexivity |].
  exact (sessions_without_locking healthy "fw1" "admin" "secret" None
           [Open; merge_a_b; CommitConfig "m"; Rollback; Close] eq_refl).
Defined.

Lemma commit_needs_staged_candidate_witness :
  commit_config healthy "m"
    (fst (staged healthy plain_driver)) (snd (staged healthy plain_driver))
  = (Ok tt, fst (committed healthy plain_driver), snd (committed healthy plain_driver))
  /\ commit_config healthy "again"
       (fst (committed healthy plain_driver)) (snd (committed healthy plain_driver))
     = (Exn (ReplaceConfigException "No config loaded."),
        fst (committed healthy plain_driver), snd (committed healthy plain_driver)).
Proof.
  split; [reflexivity |].
  exact (proj1 (commit_needs_staged_candidate healthy "m" "again"
                  (fst (staged healthy plain_driver))
                  (fst (committed healthy plain_driver))
                  (snd (staged healthy plain_driver))
                  (snd (committed healthy plain_driver))) eq_refl).
Defined.

Lemma rollback_outcome_witness :
  changed (fst (committed rollback_load_rejected plain_driver)) = true
  /\ respond rollback_load_rejected _
       (snd (committed rollback_load_rejected plain_driver))
       (XapiOp (load_cmd "config_2024-01-15.xml"))
     = inl (Some "error")
  /\ (let '(r, self', _) :=
        rollback rollback_load_rejected
          (fst (committed rollback_load_rejected plain_driver))
          (snd (committed rollback_load_rejected plain_driver)) in
      r = Ok tt
      /\ loaded self' = false /\ changed self' = false /\ merge_config self' = false).
Proof.
  split; [reflexivity | split; [reflexivity |]].
  pose proof (rollback_outcome rollback_load_rejected
                (fst (committed rollback_load_rejected plain_driver))
                (fst (committed rollback_load_rejected plain_driver))
                (snd (committed rollback_load_rejected plain_driver))
                (Event (Sleep 5)
                   :: Event (XapiOp (load_cmd "config_2024-01-15.xml"))
                   :: snd (committed rollback_load_rejected plain_driver))
                "config_2024-01-15.xml" (Some "error")
                eq_refl eq_refl eq_refl eq_refl eq_refl eq_refl) as H.
  destruct (rollback rollback_load_rejected _ _) as [[r self'] tr'].
  destruct H as (Hr & -> & _).
  repeat split; [exact Hr].
Defined.

Lemma discard_loads_what_stage_saved_witness :
  loaded (fst (opened healthy plain_driver)) = false
  /\ exists file new,
       backup_file (fst (staged healthy plain_driver)) = Some file
       /\ extends (snd (opened healthy plain_driver)) new
            (snd (staged healthy plain_driver))
       /\ In (Event (XapiOp (save_cmd file))) new
       /\ forall r self2 tr2,
            discard_config healthy
              (fst (staged healthy plain_driver)) (snd (staged healthy plain_driver))
            = (r, self2, tr2) ->
            tr2 = Event (XapiOp (load_cmd file)) :: snd (staged healthy plain_driver).
Proof.
  split; [reflexivity |].
  exact (discard_loads_what_stage_saved healthy merge_a_b
           (fst (opened healthy plain_driver)) (fst (staged healthy plain_driver))
           (snd (opened healthy plain_driver)) (snd (staged healthy plain_driver))
           eq_refl eq_refl eq_refl).
Defined.

Lemma get_config_retrieve_witness :
  "runing" <> "running"
  /\ get_config healthy "runing" false false
       (fst (opened healthy plain_driver)) (snd (opened healthy plain_driver))
     = (Ok empty_configs,
        fst (opened healthy plain_driver), snd (opened healthy plain_driver)).
Proof.
  split; [discriminate |].
  destruct (get_config_retrieve healthy "runing" false false
              (fst (opened healthy plain_driver))
              (snd (opened healthy plain_driver))) as (_ & _ & Hother & _).
  apply Hother; [reflexivity | discriminate | discriminate | discriminate].
Defined.


Lemma import_file_outcome_witness :
  no_slash "new.xml" = true
  /\ Py.basename ("/tmp/staging" +:+ "/" +:+ "new.xml") = "new.xml"
  /\ Py.basename "new.xml" = "new.xml".
Proof.
  split; [reflexivity |].
  exact (proj1 (proj2 (import_file_outcome healthy "/tmp/new.xml" plain_driver []))
           "/tmp/staging" "new.xml" eq_refl).
Defined.


Lemma get_lldp_neighbors_edges_witness :
  device (fst (opened healthy plain_driver)) = true
  /\ get_lldp_neighbors healthy (parses_to (answer_with JNone))
       (fst (opened healthy plain_driver)) (snd (opened healthy plain_driver))
     = (Exn (TypeError "'NoneType' object is not subscriptable"),
        fst (opened healthy plain_driver),
        Event XapiXmlRoot
          :: Event (XapiOp "<show><lldp><neighbors>all</neighbors></lldp></show>")
          :: snd (opened healthy plain_driver)).
Proof.
  split; [reflexivity |].
  destruct (get_lldp_neighbors_edges healthy (parses_to (answer_with JNone))
              (fst (opened healthy plain_driver))
              (snd (opened healthy plain_driver))) as (_ & _ & Hanswered).
  destruct (Hanswered (Some "success") "<response status='success'/>" JNone
              eq_refl eq_refl eq_refl eq_refl) as (Hempty & _).
  exact (Hempty eq_refl).
Defined.

Lemma lldp_neighbors_of_interface_witness :
  entry_of "@name" lldp_interface = Some (JStr "ethernet1/1")
  /\ lldp_neighbors_of (JDict lldp_interface) plain_driver []
     = (Ok [(Some "ethernet1/1",
             [{| nb_hostname := JStr "sw1"; nb_port := JStr "Gi0/1" |}])],
        plain_driver, []).
Proof.
  split; [reflexivity |].
  destruct (lldp_neighbors_of_interface lldp_interface "ethernet1/1"
              plain_driver [] eq_refl) as (_ & _ & _ & Hone & _).
  refine (Hone [("entry", _)] _
            {| nb_hostname := JStr "sw1"; nb_port := JStr "Gi0/1" |}
            eq_refl eq_refl _).
  eexists. split; [reflexivity | split; reflexivity].
Defined.

Lemma get_route_to_edges_witness :
  device (fst (opened healthy plain_driver)) = true
  /\ get_route_to healthy (parses_to (answer_with (JDict []))) int_of_digits
       "10.0.0.0/8" "static" false
       (fst (opened healthy plain_driver)) (snd (opened healthy plain_driver))
     = (Ok [],
        fst (opened healthy plain_driver),
        Event XapiXmlRoot
          :: Event (XapiOp (route_cmd "10.0.0.0/8" "static"))
          :: snd (opened healthy plain_driver)).
Proof.
  split; [reflexivity |].
  destruct (get_route_to_edges healthy (parses_to (answer_with (JDict [])))
              int_of_digits "10.0.0.0/8" "static"
              (fst (opened healthy plain_driver))
              (snd (opened healthy plain_driver)))
    as (_ & _ & _ & _ & Hanswered).
  destruct (Hanswered (Some "success") "<response status='success'/>" (JDict [])
              eq_refl eq_refl eq_refl eq_refl) as (Hnoentry & _).
  exact (Hnoentry [] eq_refl eq_refl).
Defined.

Lemma route_of_details_witness :
  entry_of "destination" static_route = Some (JStr "10.0.0.0/8")
  /\ route_of int_of_digits (JDict static_route) plain_driver []
     = (Ok (JStr "10.0.0.0/8",
            {| current_active := true;
               last_active := false;
               age := (-1)%Z;
               next_hop := JStr "10.1.1.1";
               protocol := "static";
               outgoing_interface := JStr "ethernet1/1";
               preference := 10%Z;
               inactive_reason := "";
               routing_table := JStr "vr1";
               selected_next_hop := false;
               protocol_attributes := [] |}),
        plain_driver, []).
Proof.
  split; [reflexivity |].
  destruct (route_of_details int_of_digits static_route (JStr "10.0.0.0/8")
              plain_driver [] eq_refl) as (Hdetails & _).
  exact (Hdetails "A S" JNone (JStr "10.1.1.1") (JStr "ethernet1/1") (JStr "10")
           (JStr "vr1") (-1)%Z 10%Z
           eq_refl eq_refl eq_refl eq_refl eq_refl eq_refl eq_refl eq_refl).
Defined.

Lemma extract_ip_info_outcome_witness :
  entry_of "name" addressed_interface = Some (JStr "ethernet1/5")
  /\ extract_ip_info int_of_digits (JDict addressed_interface) plain_driver []
     = (Ok (Some (Some "ethernet1/5",
                  {| ipv4 := Some [("169.254.0.1", 30%Z)]; ipv6 := None |})),
        plain_driver, []).
Proof.
  split; [reflexivity |].
  destruct (extract_ip_info_outcome int_of_digits addressed_interface
              "ethernet1/5" plain_driver [] eq_refl eq_refl)
    as (_ & Hprimary & _).
  refine (Hprimary "169.254.0.1" "30" 30%Z eq_refl eq_refl _
            eq_refl eq_refl eq_refl).
  discriminate.
Defined.

Lemma get_interfaces_ip_edges_witness :
  device plain_driver = false
  /\ get_interfaces_ip healthy (parses_to JNone) int_of_digits plain_driver []
     = (Exn (none_has_no "op"), plain_driver, [])
  /\ get_lldp_neighbors healthy (parses_to JNone) plain_driver []
     = (Ok [], plain_driver, [])
  /\ get_route_to healthy (parses_to JNone) int_of_digits "" "" false
       plain_driver []
     = (Ok [], plain_driver, []).
Proof.
  split; [reflexivity |].
  exact (proj1 (get_interfaces_ip_edges healthy (parses_to JNone) int_of_digits
                  plain_driver []) eq_refl).
Defined.

Lemma is_alive_outcome_witness :
  device (fst (opened healthy plain_driver)) = true
  /\ is_alive healthy
       (fst (opened healthy plain_driver)) (snd (opened healthy plain_driver))
     = (Ok {[ "is_alive" := true ]},
        fst (opened healthy plain_driver), snd (opened healthy plain_driver)).
Proof.
  split; [reflexivity |].
  destruct (is_alive_outcome healthy
              (fst (opened healthy plain_driver))
              (snd (opened healthy plain_driver))) as (_ & _ & Hopen & _).
  exact (Hopen eq_refl eq_refl).
Defined.
